(** * python-sasctl: the pzmm model-import and fit-statistic pipeline

    A shallow embedding of [src/sasctl/pzmm/import_model.py] and of the
    fit-statistic, ROC and Lift writers of [src/sasctl/pzmm/writeJSONFiles.py],
    with the properties the specification states about them.

    Python values are an inductive type, dictionaries are [gmap]s, lists that
    are updated by index are stdpp lists, exceptions are an error type, and
    calls to collaborators (the model repository, the zipper, the score-code
    writer, CAS, scikit-learn, the file system) are events of a trace whose
    answers come from an environment record. *)

From Stdlib Require Import ZArith Ascii String List Bool Lia.
From Stdlib Require Import Floats.SpecFloat.
From stdpp Require Import base option list gmap strings.

Local Open Scope string_scope.
Local Open Scope list_scope.
Local Open Scope Z_scope.
#[local] Set Warnings "-register-all".

(** ** Python values, exceptions and results *)

(** The exceptions the modelled code can raise. *)
Inductive exn :=
| ValueError
| SystemError
| TypeError
| AttributeError
| IndexError
| KeyError
| OverflowError
| UnboundLocalError
| EOFError.

(** A computation either returns a value or raises. *)
Inductive result (A : Type) :=
| Ok (a : A)
| Raise (e : exn).
Arguments Ok {A} a.
Arguments Raise {A} e.

#[export] Instance result_ret : MRet result := @Ok.
#[export] Instance result_bind : MBind result := λ A B k r,
  match r with
  | Ok a => k a
  | Raise e => Raise e
  end.

#[export] Instance result_fmap : FMap result := λ A B f r,
  match r with
  | Ok a => Ok (f a)
  | Raise e => Raise e
  end.

(** [None] where Python raises [e]. *)
Definition or_raise {A} (e : exn) (o : option A) : result A :=
  match o with
  | Some a => Ok a
  | None => Raise e
  end.

(** A loop that threads a value and stops at the first exception. *)
Fixpoint foldM {A S} (body : S → A → result S) (s : S) (l : list A) : result S :=
  match l with
  | [] => Ok s
  | x :: l => s ← body s x; foldM body s l
  end.

Fixpoint mapM {A B} (f : A → result B) (l : list A) : result (list B) :=
  match l with
  | [] => Ok []
  | x :: l => y ← f x; ys ← mapM f l; Ok (y :: ys)
  end.

(** ** Effects

    A computation reads and extends the trace of the calls made so far.  An
    exception keeps the trace: what was done before it stays done. *)
Definition M (E A : Type) : Type := list E → result A * list E.

#[export] Instance M_ret E : MRet (M E) := λ A a t, (Ok a, t).
#[export] Instance M_bind E : MBind (M E) := λ A B k m t,
  match m t with
  | (Ok a, t') => k a t'
  | (Raise e, t') => (Raise e, t')
  end.

Definition emit {E} (e : E) : M E unit := λ t, (Ok tt, t ++ [e]).
Definition raise {E A} (e : exn) : M E A := λ t, (Raise e, t).
Definition lift {E A} (r : result A) : M E A := λ t, (r, t).
(** A call to a collaborator: the call is recorded, and the answer may depend
    on everything that happened up to and including it. *)
Definition call {E A} (e : E) (answer : list E → A) : M E A :=
  λ t, (Ok (answer (t ++ [e])), t ++ [e]).

(** binary64, the format of Python's [float] and of numpy's [float64]. *)
Definition prec : Z := 53.
Definition emax : Z := 1024.

(** The Python values the modelled functions receive and store.  A JSON
    document read by [json.load] uses the same constructors. *)
Inductive pyval :=
| PNone
| PBool (b : bool)
| PInt (n : Z)
| PFloat (f : spec_float)
| PStr (s : string)
| PTuple (l : list pyval)
| PList (l : list pyval).

(** Truth value of a Python object, as [if x:] and [not x] test it. *)
Definition truthy (v : pyval) : bool :=
  match v with
  | PNone => false
  | PBool b => b
  | PInt n => negb (n =? 0)
  | PFloat (S754_zero _) => false
  | PFloat _ => true
  | PStr s => negb (String.eqb s "")
  | PTuple l | PList l => negb (Nat.eqb (length l) 0)
  end.

(** [int(x)] for a float: truncation toward zero; [nan] and the infinities
    raise. *)
Definition int_of_float (f : spec_float) : result Z :=
  match f with
  | S754_zero _ => Ok 0
  | S754_infinity _ => Raise OverflowError
  | S754_nan => Raise ValueError
  | S754_finite s m e => Ok (cond_Zopp s (Z.shiftl (Z.pos m) e))
  end.


(** The float that an integer converts to. *)
Definition float_of_Z (n : Z) : spec_float :=
  binary_normalize prec emax n 0 false.

(** ** [JSONFiles.formatParameter] and [JSONFiles.convertDataRole] *)

Module JSONFiles.

Definition startswith_underscore (s : string) : bool :=
  match s with
  | String c _ => Ascii.eqb c "_"%char
  | EmptyString => false
  end.

Fixpoint endswith_underscore (s : string) : bool :=
  match s with
  | EmptyString => false
  | String c EmptyString => Ascii.eqb c "_"%char
  | String _ s' => endswith_underscore s'
  end.

(** [formatParameter]: wrap the name in underscores where they are missing.
    A name that is not a string has no [startswith] method. *)
Definition formatParameter (paramName : pyval) : result string :=
  match paramName with
  | PStr paramName =>
      if negb (startswith_underscore paramName && endswith_underscore paramName) then
        let paramName :=
          if negb (startswith_underscore paramName) then "_" +:+ paramName else paramName in
        let paramName :=
          if negb (endswith_underscore paramName) then paramName +:+ "_" else paramName in
        Ok paramName
      else Ok paramName
  | _ => Raise AttributeError
  end.

(** [convertDataRole]: [type(dataRole) is int or type(dataRole) is float]
    excludes [bool], which falls to the last branch. *)
Definition convertDataRole (dataRole : pyval) : result pyval :=
  let of_int (dataRole : Z) :=
    if dataRole =? 1 then "TRAIN"
    else if dataRole =? 2 then "TEST"
    else if dataRole =? 3 then "VALIDATE"
    else "TRAIN" in
  match dataRole with
  | PInt n => Ok (PStr (of_int n))
  | PFloat f => n ← int_of_float f; Ok (PStr (of_int n))
  | PStr s =>
      Ok (PInt (if String.eqb s "TRAIN" then 1
                else if String.eqb s "TEST" then 2
                else if String.eqb s "VALIDATE" then 3
                else 1))
  | _ => Ok (PInt 1)
  end.

(** *** JSON documents

    The templates [null_dmcas_fitstat.json], [null_dmcas_roc.json] and
    [null_dmcas_lift.json] are data files of the package; they are arguments
    here.  A document has the list under its ["data"] key and its other keys;
    a row of that list has its ["dataMap"], its ["rowNumber"] (a JSON
    integer, on which [int] is the identity) and its other keys. *)
Record row := {
  dataMap : gmap string pyval;
  rowNumber : Z;
  others : gmap string pyval;
}.

Record json_doc := {
  data : list row;
  meta : gmap string pyval;
}.

Definition with_dataMap (dm : gmap string pyval) (r : row) : row :=
  {| dataMap := dm; rowNumber := rowNumber r; others := others r |}.

Definition with_rowNumber (n : Z) (r : row) : row :=
  {| dataMap := dataMap r; rowNumber := n; others := others r |}.

Definition with_data (d : list row) (doc : json_doc) : json_doc :=
  {| data := d; meta := meta doc |}.

(** What the writers do to the outside world. *)
Inductive event :=
| Print (msg : string)
| Input (prompt : string)
| ReadCsv (csvPath : string)
| WriteJSON (jPath file : string) (doc : json_doc)
| LoadActionSet (name : string)
| ReadFrame (actual predict : list pyval) (casout : string)
| Assess (table casout response event : string)
| ToFrame (table : string).

Definition no_data_message : string :=
  "No data was provided. Please provide the actual and predicted values for at least one of the partitions (VALIDATE, TRAIN, or TEST).".

(** *** [JSONFiles.writeBaseFitStat] *)

Definition validParams : list string :=
  ["_RASE_"; "_NObs_"; "_GINI_"; "_GAMMA_"; "_MCE_";
   "_ASE_"; "_MCLL_"; "_KS_"; "_KSPostCutoff_"; "_DIV_";
   "_TAU_"; "_KSCut_"; "_C_"].

Definition is_valid_param (paramName : string) : bool :=
  bool_decide (paramName ∈ validParams).

(** [dataMap[dataRole-1]] on the three-element list [dataMap]: a negative
    index counts from the end, an index out of range raises, and only
    integers (with [bool] among them) subtract and index. *)
Definition role_index (dataRole : pyval) : result nat :=
  let index (k : Z) :=
    if (0 <=? k) && (k <? 3) then Ok (Z.to_nat k)
    else if (-3 <=? k) && (k <? 0) then Ok (Z.to_nat (k + 3))
    else Raise IndexError in
  match dataRole with
  | PInt n => index (n - 1)
  | PBool b => index (Z.b2z b - 1)
  | _ => Raise TypeError
  end.

(** [dataMap[dataRole-1]['dataMap'][paramName] = paramValue] *)
Definition set_param (dataMap3 : list row) (dataRole : pyval)
    (paramName : string) (paramValue : pyval) : result (list row) :=
  i ← role_index dataRole;
  Ok (alter (λ r, with_dataMap (<[paramName := paramValue]> (dataMap r)) r) i dataMap3).

(** One turn of the loop over [tupleList]. *)
Definition tuple_step (dataMap3 : list row) (paramTuple : pyval) : result (list row) :=
  match paramTuple with
  | PTuple [p0; p1; p2] =>
      paramName ← formatParameter p0;
      if negb (is_valid_param paramName) then Ok dataMap3
      else
        dataRole ← match p2 with
                   | PStr _ => convertDataRole p2
                   | _ => Ok p2
                   end;
        set_param dataMap3 dataRole paramName p1
  | _ => Ok dataMap3
  end.

(** The [while True] loop of the interactive mode.  The lines typed by the
    user are the list [stdin]; [input] at its end raises [EOFError]. *)
Fixpoint user_loop (stdin : list string) (dataMap3 : list row) : M event (list row) :=
  emit (Input "Parameter name: ");;
  match stdin with
  | [] => raise EOFError
  | paramName :: stdin =>
      paramName ← lift (formatParameter (PStr paramName));
      if negb (is_valid_param paramName) then
        emit (Print "Not a valid parameter. Please see documentation.");;
        emit (Input "More parameters? (Y/N)");;
        match stdin with
        | [] => raise EOFError
        | more :: stdin =>
            if String.eqb more "N" then mret dataMap3 else user_loop stdin dataMap3
        end
      else
        emit (Input "Parameter value: ");;
        match stdin with
        | [] => raise EOFError
        | paramValue :: stdin =>
            emit (Input "Data role: ");;
            match stdin with
            | [] => raise EOFError
            | dataRole :: stdin =>
                dataRole ← lift (convertDataRole (PStr dataRole));
                dataMap3 ← lift (set_param dataMap3 dataRole paramName (PStr paramValue));
                emit (Input "More parameters? (Y/N)");;
                match stdin with
                | [] => raise EOFError
                | more :: stdin =>
                    if String.eqb more "N" then mret dataMap3 else user_loop stdin dataMap3
                end
            end
        end
  end.

(** One row of the CSV file: [paramName, paramValue, dataRole = row]. *)
Definition csv_step (dataMap3 : list row) (csvRow : list pyval) : result (list row) :=
  match csvRow with
  | [paramName; paramValue; dataRole] =>
      paramName ← formatParameter paramName;
      if negb (is_valid_param paramName) then Ok dataMap3
      else
        dataRole ← match dataRole with
                   | PStr _ => convertDataRole dataRole
                   | _ => Ok dataRole
                   end;
        set_param dataMap3 dataRole paramName paramValue
  | _ => Raise ValueError
  end.

(** [writeBaseFitStat].  [dataMap[i] = nullJSONDict['data'][i]] makes the
    three entries of [dataMap] the first three rows of the template
    themselves, so what is written is the template with those rows updated.
    [csv] is the path of the CSV file with the rows [pd.read_csv] finds in
    it. *)
Definition writeBaseFitStat (nullJSONDict : json_doc)
    (csv : option (string * list (list pyval))) (jPath : string)
    (userInput : bool) (stdin : list string) (tupleList : option (list pyval))
    : M event unit :=
  dataMap3 ← lift (if decide (3 ≤ length (data nullJSONDict))%nat
                   then Ok (take 3 (data nullJSONDict)) else Raise IndexError);
  dataMap3 ← match tupleList with
             | Some tupleList => lift (foldM tuple_step dataMap3 tupleList)
             | None => mret dataMap3
             end;
  dataMap3 ← (if userInput then user_loop stdin dataMap3 else mret dataMap3);
  dataMap3 ← match csv with
             | Some (csvPath, csvData) =>
                 emit (ReadCsv csvPath);;
                 lift (foldM csv_step dataMap3 csvData)
             | None => mret dataMap3
             end;
  let outJSON := with_data (dataMap3 ++ drop 3 (data nullJSONDict)) nullJSONDict in
  emit (WriteJSON jPath "dmcas_fitstat.json" outJSON).

(** *** [JSONFiles.calculateFitStat] *)

(** The forms a partition's data set is passed in.  An array is given by its
    rows and a frame by its columns, so that [data.tolist()] and
    [data.transpose().values.tolist()] are both the stored list. *)
Inductive dataset :=
| NdArray (rows : list (list pyval))
| DataFrame (columns : list (list pyval))
| PyList (l : list pyval)
| OtherData.

(** The initial entry of [dataSets]: [[[None], [None]]]. *)
Definition no_data : pyval := PList [PList [PNone]; PList [PNone]].

Definition as_lists (data : dataset) : pyval :=
  match data with
  | NdArray rows => PList (PList <$> rows)
  | DataFrame columns => PList (PList <$> columns)
  | PyList l => PList l
  | OtherData => no_data
  end.

(** [enumerate([validateData, trainData, testData])], the entries that are
    not [None]. *)
Definition provided (validateData trainData testData : option dataset)
    : list (nat * dataset) :=
  omap (λ p, (p.1,.) <$> p.2) (imap pair [validateData; trainData; testData]).

Definition dataPartitionExists (validateData trainData testData : option dataset)
    : list nat :=
  fst <$> provided validateData trainData testData.

(** [x[i]] and [len(x)] for a constant index. *)
Definition py_index (x : pyval) (i : nat) : result pyval :=
  match x with
  | PList l | PTuple l => or_raise IndexError (l !! i)
  | PStr s => or_raise IndexError ((λ c, PStr (String c EmptyString)) <$> String.get i s)
  | _ => Raise TypeError
  end.

Definition py_len (x : pyval) : result Z :=
  match x with
  | PList l | PTuple l => Ok (Z.of_nat (length l))
  | PStr s => Ok (Z.of_nat (String.length s))
  | _ => Raise TypeError
  end.

(** The elements of [for x in v]. *)
Definition py_iter (x : pyval) : result (list pyval) :=
  match x with
  | PList l | PTuple l => Ok l
  | PStr s => Ok ((λ c, PStr (String c EmptyString)) <$> list_ascii_of_string s)
  | _ => Raise TypeError
  end.

(** [round(x)]: to the nearest integer, ties to the even one. *)
Definition py_round (x : pyval) : result pyval :=
  match x with
  | PInt n => Ok (PInt n)
  | PBool b => Ok (PInt (Z.b2z b))
  | PFloat (S754_zero _) => Ok (PInt 0)
  | PFloat (S754_infinity _) => Raise OverflowError
  | PFloat S754_nan => Raise ValueError
  | PFloat (S754_finite s m e) =>
      if 0 <=? e then Ok (PInt (cond_Zopp s (Z.shiftl (Z.pos m) e)))
      else
        let d := Z.shiftl 1 (- e) in
        let q := Z.pos m / d in
        let r := Z.pos m mod d in
        let q := match 2 * r ?= d with
                 | Lt => q
                 | Gt => q + 1
                 | Eq => if Z.even q then q else q + 1
                 end in
        Ok (PInt (cond_Zopp s q))
  | _ => Raise TypeError
  end.

(** [max] of a sequence of floats: the first element that no later one
    exceeds; an empty sequence raises. *)
Definition py_max (l : list spec_float) : result spec_float :=
  match l with
  | [] => Raise ValueError
  | x :: l => Ok (fold_left (λ m y, if SFltb m y then y else m) l x)
  end.

(** The statistics that scikit-learn and scipy compute.  They are functions
    of their arguments and may raise. *)
Record stats := {
  roc_curve : pyval → pyval → result (list spec_float * list spec_float);
  mean_squared_error : pyval → pyval → result spec_float;
  roc_auc_score : pyval → pyval → result spec_float;
  gamma_fit_scale : pyval → result spec_float;
  accuracy_score : pyval → pyval → result spec_float;
  log_loss : pyval → pyval → result spec_float;
  kendalltau : pyval → pyval → result spec_float;
  auc : list spec_float → list spec_float → result spec_float;
}.

(** The body of the loop over [dataPartitionExists]; [fitStats] is the
    [dataMap] of row [j] and [dataSet] is [dataSets[j]]. *)
Definition fit_statistics (sk : stats) (j : nat) (dataSet : pyval)
    (fitStats : gmap string pyval) : result (gmap string pyval) :=
  let fitStats := <["_PartInd_" := PInt (Z.of_nat j)]> fitStats in
  actual ← py_index dataSet 0;
  predicted ← py_index dataSet 1;
  '(fpr, tpr) ← roc_curve sk actual predicted;
  mse ← mean_squared_error sk actual predicted;
  let RASE := SFsqrt prec emax mse in
  let fitStats := <["_RASE_" := PFloat RASE]> fitStats in
  NObs ← py_len actual;
  let fitStats := <["_NObs_" := PInt NObs]> fitStats in
  auc_score ← roc_auc_score sk actual predicted;
  let GINI := SFsub prec emax (SFmul prec emax (float_of_Z 2) auc_score) (float_of_Z 1) in
  let fitStats := <["_GINI_" := PFloat GINI]> fitStats in
  scale ← gamma_fit_scale sk predicted;
  let fitStats := <["_GAMMA_" := PFloat (SFdiv prec emax (float_of_Z 1) scale)]> fitStats in
  xs ← py_iter predicted;
  intPredict ← mapM py_round xs;
  accuracy ← accuracy_score sk actual (PList intPredict);
  let MCE := SFsub prec emax (float_of_Z 1) accuracy in
  let fitStats := <["_MCE_" := PFloat MCE]> fitStats in
  ASE ← mean_squared_error sk actual predicted;
  let fitStats := <["_ASE_" := PFloat ASE]> fitStats in
  MCLL ← log_loss sk actual predicted;
  let fitStats := <["_MCLL_" := PFloat MCLL]> fitStats in
  KS ← py_max (zip_with (λ a b, SFabs (SFsub prec emax a b)) fpr tpr);
  let fitStats := <["_KS_" := PFloat KS]> fitStats in
  let fitStats := <["_KSPostCutoff_" := PNone]> fitStats in
  DIV ← py_len actual;
  let fitStats := <["_DIV_" := PInt DIV]> fitStats in
  TAU ← kendalltau sk actual predicted;
  let fitStats := <["_TAU_" := PFloat TAU]> fitStats in
  let fitStats := <["_KSCut_" := PNone]> fitStats in
  C ← auc sk fpr tpr;
  let fitStats := <["_C_" := PFloat C]> fitStats in
  Ok fitStats.

(** One turn of that loop on the document. *)
Definition fit_partition (sk : stats) (doc : json_doc) (p : nat * dataset)
    : result json_doc :=
  let '(j, dataSet) := p in
  entry ← or_raise IndexError (data doc !! j);
  fitStats ← fit_statistics sk j (as_lists dataSet) (dataMap entry);
  Ok (with_data (<[j := with_dataMap fitStats entry]> (data doc)) doc).

Definition calculateFitStat (sk : stats) (nullJSONDict : json_doc)
    (validateData trainData testData : option dataset) (jPath : string)
    : M event unit :=
  let dataSets := provided validateData trainData testData in
  (if decide (length (dataPartitionExists validateData trainData testData) = 0%nat)
   then emit (Print no_data_message);; raise ValueError
   else mret tt);;
  nullJSONDict ← lift (foldM (fit_partition sk) nullJSONDict dataSets);
  emit (WriteJSON jPath "dmcas_fitstat.json" nullJSONDict).

(** *** [JSONFiles.generateROCLiftStat] *)

(** The frame with the columns [actual] and [predict] that a data set is
    converted to. *)
Record frame := {
  actual : list pyval;
  predict : list pyval;
}.

(** [array.transpose()] of a two-dimensional array given by its rows. *)
Definition transpose (rows : list (list pyval)) : list (list pyval) :=
  match rows with
  | [] => []
  | r :: _ => (λ k, omap (λ row, row !! k) rows) <$> seq 0 (length r)
  end.

(** [frame[columns] = array]: the array needs one column for each of the two
    names. *)
Definition pd_assign (rows : list (list pyval)) : result frame :=
  if forallb (λ r, Nat.eqb (length r) 2) rows
  then Ok {| actual := omap (λ r, r !! 0%nat) rows; predict := omap (λ r, r !! 1%nat) rows |}
  else Raise ValueError.

(** [np.array(data)] of a list of rows. *)
Definition rows_of (l : list pyval) : result (list (list pyval)) :=
  mapM (λ x, match x with PList r | PTuple r => Ok r | _ => Raise ValueError end) l.

(** The conversion of one data set; a value of another type leaves the
    empty frame, which has neither column. *)
Definition to_frame (data : dataset) : result (option frame) :=
  match data with
  | NdArray rows =>
      Some <$> match pd_assign rows with
               | Raise ValueError => pd_assign (transpose rows)
               | r => r
               end
  | PyList l => rows ← rows_of l; Some <$> pd_assign (transpose rows)
  | DataFrame columns =>
      c0 ← or_raise IndexError (columns !! 0%nat);
      c1 ← or_raise IndexError (columns !! 1%nat);
      Ok (Some {| actual := c0; predict := c1 |})
  | OtherData => Ok None
  end.

(** [l.remove(x)]: drops the first [x]; raises when there is none. *)
Fixpoint list_remove (x : Z) (l : list Z) : option (list Z) :=
  match l with
  | [] => None
  | y :: l => if decide (y = x) then Some l else (y ::.) <$> list_remove x l
  end.

(** [table[column][j]] on a frame fetched from CAS. *)
Definition cell (table : gmap string (list spec_float)) (column : string) (j : nat)
    : result spec_float :=
  col ← or_raise KeyError (table !! column);
  or_raise KeyError (col !! j).

Definition roc_columns : list string :=
  ["_Cutoff_"; "_TP_"; "_FP_"; "_FN_"; "_TN_"; "_Sensitivity_"; "_Specificity_";
   "_KS_"; "_KS2_"; "_FHALF_"; "_FPR_"; "_ACC_"; "_FDR_"; "_F1_"; "_C_";
   "_GINI_"; "_GAMMA_"; "_TAU_"; "_MiscEvent_"].

Definition lift_columns : list string :=
  ["_Depth_"; "_Value_"; "_NObs_"; "_NEvents_"; "_NEventsBest_"; "_Resp_";
   "_RespBest_"; "_Lift_"; "_LiftBest_"; "_CumResp_"; "_CumRespBest_";
   "_CumLift_"; "_CumLiftBest_"; "_PctResp_"; "_PctRespBest_"; "_CumPctResp_";
   "_CumPctRespBest_"; "_Gain_"; "_GainBest_"].

(** What CAS and the interpreter answer: the frame a [to_frame] call
    returns, given the calls so far, and [str]. *)
Record cas := {
  fetched : list event → gmap string (list spec_float);
  str : pyval → string;
}.

(** [dataMap[c] = str(table[c][j])] for each of the columns. *)
Definition copy_columns (conn : cas) (table : gmap string (list spec_float))
    (columns : list string) (j : nat) (dm : gmap string pyval)
    : result (gmap string pyval) :=
  foldM (λ dm c, x ← cell table c j; Ok (<[c := PStr (str conn (PFloat x))]> dm))
        dm columns.

(** The body of [for j in range(100)] for partition [i]. *)
Definition roc_row (conn : cas) (targetName targetValue : pyval)
    (assessROC : gmap string (list spec_float)) (i : nat)
    (st : list Z * list row) (j : nat) : result (list Z * list row) :=
  let '(nullROCRow, rocData) := st in
  let rowNumber := (i * 100 + j)%nat in
  nullROCRow ← or_raise ValueError (list_remove (Z.of_nat rowNumber + 1) nullROCRow);
  r ← or_raise IndexError (rocData !! rowNumber);
  let dm := <["_Event_" := targetValue]> (dataMap r) in
  let dm := <["_TargetName_" := targetName]> dm in
  dm ← copy_columns conn assessROC roc_columns j dm;
  specificity ← cell assessROC "_Specificity_" j;
  let dm := <["_OneMinusSpecificity_" :=
               PStr (str conn (PFloat (SFsub prec emax (float_of_Z 1) specificity)))]> dm in
  Ok (nullROCRow, <[rowNumber := with_dataMap dm r]> rocData).

(** The body of [for j in range(21)] for partition [i]. *)
Definition lift_row (conn : cas) (targetName targetValue : pyval)
    (assessLift : gmap string (list spec_float)) (i : nat)
    (st : list Z * list row) (j : nat) : result (list Z * list row) :=
  let '(nullLiftRow, liftData) := st in
  let rowNumber := (i * 21 + j)%nat in
  nullLiftRow ← or_raise ValueError (list_remove (Z.of_nat rowNumber + 1) nullLiftRow);
  r ← or_raise IndexError (liftData !! rowNumber);
  let dm := <["_Event_" := PStr (str conn targetValue)]> (dataMap r) in
  let dm := <["_TargetName_" := targetName]> dm in
  dm ← (if decide (j ≠ 0%nat) then copy_columns conn assessLift lift_columns (j - 1) dm
        else Ok dm);
  Ok (nullLiftRow, <[rowNumber := with_dataMap dm r]> liftData).

(** The state of the loop over the partitions. *)
Record curves := {
  nullROCRow : list Z;
  rocData : list row;
  nullLiftRow : list Z;
  liftData : list row;
}.

Fixpoint mfoldM {E A S} (body : S → A → M E S) (s : S) (l : list A) : M E S :=
  match l with
  | [] => mret s
  | x :: l => s ← body s x; mfoldM body s l
  end.

(** The body of [for i in dataPartitionExists]. *)
Definition assess_partition (conn : cas) (targetName targetValue : pyval)
    (st : curves) (p : nat * option frame) : M event curves :=
  let '(i, dataSet) := p in
  scored ← lift (or_raise KeyError dataSet);
  emit (ReadFrame (actual scored) (predict scored) "SCOREDVALUES");;
  emit (Assess "SCOREDVALUES" "SCOREASSESS" "actual" (str conn targetValue));;
  assessROC ← call (ToFrame "SCOREASSESS_ROC") (fetched conn);
  assessLift ← call (ToFrame "SCOREASSESS") (fetched conn);
  '(nullROCRow, rocData) ←
    lift (foldM (roc_row conn targetName targetValue assessROC i)
                (nullROCRow st, rocData st) (seq 0 100));
  '(nullLiftRow, liftData) ←
    lift (foldM (lift_row conn targetName targetValue assessLift i)
                (nullLiftRow st, liftData st) (seq 0 21));
  mret {| nullROCRow := nullROCRow; rocData := rocData;
          nullLiftRow := nullLiftRow; liftData := liftData |}.

(** [for index, row in reversed(list(enumerate(rows))):
       if int(row['rowNumber']) in nullRow: rows.pop(index)] *)
Definition pop_rows (nullRow : list Z) (rows : list row) : list row :=
  fold_left (λ rows p, if bool_decide (rowNumber p.2 ∈ nullRow)
                       then delete p.1 rows else rows)
            (reverse (imap pair rows)) rows.

(** [for i, _ in enumerate(rows): rows[i]['rowNumber'] = i + 1] *)
Definition renumber (rows : list row) : list row :=
  imap (λ i r, with_rowNumber (Z.of_nat i + 1) r) rows.

Definition generateROCLiftStat (conn : cas)
    (nullJSONROCDict nullJSONLiftDict : json_doc)
    (targetName targetValue : pyval)
    (validateData trainData testData : option dataset) (jPath : string)
    : M event unit :=
  dataSets ← lift (mapM (λ p, (p.1,.) <$> to_frame p.2)
                        (provided validateData trainData testData));
  (if decide (length (dataPartitionExists validateData trainData testData) = 0%nat)
   then emit (Print no_data_message);; raise ValueError
   else mret tt);;
  emit (LoadActionSet "percentile");;
  st ← mfoldM (assess_partition conn targetName targetValue)
         {| nullLiftRow := Z.of_nat <$> seq 1 63;
            nullROCRow := Z.of_nat <$> seq 1 300;
            rocData := data nullJSONROCDict;
            liftData := data nullJSONLiftDict |}
         dataSets;
  let '(liftData, rocData) :=
    if decide (length (dataPartitionExists validateData trainData testData) < 3)%nat
    then (renumber (pop_rows (nullLiftRow st) (liftData st)),
          renumber (pop_rows (nullROCRow st) (rocData st)))
    else (liftData st, rocData st) in
  emit (WriteJSON jPath "dmcas_roc.json" (with_data rocData nullJSONROCDict));;
  emit (WriteJSON jPath "dmcas_lift.json" (with_data liftData nullJSONLiftDict)).

End JSONFiles.

(** ** [JSONFiles.writeModelPropertiesJSON]

    The file it writes is one JSON object, kept here as the list of its
    keys and values in the order of the [pd.Series]. *)
Module ModelProperties.

Inductive event :=
| GetUser
| WriteJSON (jPath file : string) (doc : list (string * pyval)).







End ModelProperties.


(** ** [import_model.py] *)

Module ImportModel.

(** A project as the model repository describes it (a [RestObj], or a
    dictionary with the same keys). *)
Record RestObj := {
  id : string;
  name : string;
  latestVersion : string;
}.

(** The [project] argument: a name or id, or a representation of the
    project. *)
Inductive project_ref :=
| ProjectName (s : string)
| ProjectObj (p : RestObj).

Record version := {
  version_name : string;
  version_id : string;
}.

Record Model := {
  model_id : string;
  model_name : string;
}.

(** What [mr.get] on the models of a project version unwraps to: an empty
    list, the single model, or the paged list of the models. *)
Inductive models_response :=
| NoModels
| OneModel (m : Model)
| PagedList (l : list Model).

(** The [model_files] argument: a directory, or the files by name. *)
Inductive model_files :=
| FilesPath (path : string)
| FilesDict (files : gmap string string).

Record score_code_args := {
  sc_model_prefix : string;
  sc_input_data : list (list pyval);
  sc_predict_method : list pyval;
  sc_score_metrics : list string;
  sc_model : option Model;
  sc_pickle_type : string;
  sc_predict_threshold : option spec_float;
  sc_score_code_path : option string;
  sc_target_values : option (list string);
  sc_missing_values : bool;
  sc_score_cas : bool;
  sc_kwargs : gmap string pyval;
}.

Inductive warning :=
| NoProjectFound (project : project_ref)
| ScoreCodeArgumentsRequired.

Inductive message :=
| ProjectCreated (name : string)
| FilesZipped (path : string)
| ScoreCodeWritten (path model_prefix : string)
| ModelImported (name id : string)
| ImportFailed.

(** The two checks of this module, as [import_model] calls them. *)
Inductive check :=
| project_exists_check
| model_exists_check.

(** The calls [import_model] and its helpers make. *)
Inductive event :=
| Warn (w : warning)
| Print (msg : message)
| Calls (f : check)
| VersionInfo
| WriteScoreCode (args : score_code_args)
| ZipFiles (files : model_files) (model_prefix : string) (is_viya4 : bool)
| GetProject (project : project_ref)
| DefaultRepository
| CreateProject (project : project_ref) (repo : option string)
| ListProjectVersions (project : RestObj)
| Get (path : string)
| DeleteModel (id : string)
| ImportModelFromZip (name : string) (project : RestObj) (zip_io_file : string)
    (version : string)
| GetModel (model : option Model).

(** The collaborators: what each call answers, given the calls so far.
    [uuid_parses s] tells whether [UUID(s)] accepts the string [s]. *)
Record env := {
  notebook_output : bool;
  uuid_parses : string → bool;
  version_info : list event → Z;
  write_score_code : list event → option (gmap string string);
  zip_files : list event → string;
  get_project : list event → option RestObj;
  default_repository_id : list event → option string;
  create_project : list event → RestObj;
  list_project_versions : list event → list version;
  get_models : list event → models_response;
  import_model_from_zip : list event → option Model;
  get_model : list event → option Model;
}.

(** [uuid.UUID(hex)]: a string is parsed, and a malformed one raises
    [ValueError]; a dictionary has no [replace] method. *)
Definition UUID (sas : env) (hex : project_ref) : result unit :=
  match hex with
  | ProjectName s => if uuid_parses sas s then Ok tt else Raise ValueError
  | ProjectObj _ => Raise AttributeError
  end.

Definition project_exists (sas : env) (project : project_ref)
    (response : option RestObj) : M event RestObj :=
  match response with
  | None =>
      emit (Warn (NoProjectFound project));;
      match UUID sas project with
      | Ok _ => raise SystemError
      | Raise ValueError =>
          repo ← call DefaultRepository (default_repository_id sas);
          response ← call (CreateProject project repo) (create_project sas);
          emit (Print (ProjectCreated (name response)));;
          mret response
      | Raise e => raise e
      end
  | Some response => mret response
  end.

(** The branch taken for one model of the version. *)
Definition check_model (name : string) (force : pyval) (model : Model) : M event unit :=
  if String.eqb (model_name model) name && truthy force then
    emit (DeleteModel (model_id model))
  else if String.eqb (model_name model) name && negb (truthy force) then
    raise ValueError
  else mret tt.

Fixpoint for_each {A} (l : list A) (body : A → M event unit) : M event unit :=
  match l with
  | [] => mret tt
  | x :: l => body x;; for_each l body
  end.

(** [model_exists].  [mr.get_project] answers [None] for an unknown
    project, which has no ["id"]; [version_id] is unbound when no version has
    the name looked for. *)
Definition model_exists (sas : env) (project : project_ref) (name : string)
    (force : pyval) (version_name : string) : M event unit :=
  project ← call (GetProject project) (get_project sas);
  project ← lift (or_raise TypeError project);
  let project_id := id project in
  project_versions ← call (ListProjectVersions project) (list_project_versions sas);
  let version_name :=
    if String.eqb version_name "latest" then latestVersion project else version_name in
  version ← lift (or_raise UnboundLocalError
    (List.find (λ version, String.eqb version_name (ImportModel.version_name version))
               project_versions));
  project_models ← call
    (Get ("/projects/" +:+ project_id +:+ "/projectVersions/" +:+
          version_id version +:+ "/models"))
    (get_models sas);
  match project_models with
  | NoModels => mret tt
  | OneModel model => check_model name force model
  | PagedList [] => mret tt
  | PagedList l => for_each l (check_model name force)
  end.

(** The arguments of [ImportModel.import_model]. *)
Record arguments := {
  model_files_arg : model_files;
  model_prefix : string;
  project : project_ref;
  input_data : option (list (list pyval));
  predict_method : option (list pyval);
  score_metrics : option (list string);
  pickle_type : string;
  project_version : string;
  missing_values : bool;
  overwrite_model : pyval;
  score_cas : bool;
  mlflow_details : option (gmap string string);
  predict_threshold : option spec_float;
  target_values : option (list string);
  kwargs : gmap string pyval;
}.

(** [zm.zip_files] on the dictionary, or on the directory with the message
    that follows it in a notebook. *)
Definition zip_model_files (sas : env) (files : model_files) (model_prefix : string)
    (is_viya4 : bool) : M event string :=
  zip_io_file ← call (ZipFiles files model_prefix is_viya4) (zip_files sas);
  match files with
  | FilesDict _ => mret zip_io_file
  | FilesPath path =>
      (if notebook_output sas then emit (Print (FilesZipped path)) else mret tt);;
      mret zip_io_file
  end.

(** The statements each of the three branches repeats: the project check,
    the model check and the import of the zip file. *)
Definition check_and_import (sas : env) (a : arguments) (zip_io_file : string)
    : M event (option Model) :=
  project_response ← call (GetProject (project a)) (get_project sas);
  emit (Calls project_exists_check);;
  project ← project_exists sas (project a) project_response;
  emit (Calls model_exists_check);;
  model_exists sas (ProjectObj project) (model_prefix a) (overwrite_model a)
               (project_version a);;
  call (ImportModelFromZip (model_prefix a) project zip_io_file (project_version a))
       (import_model_from_zip sas).

(** The message about the imported model; a response without [name] or
    [id] gives the other message. *)
Definition report_import (sas : env) (model : option Model) : M event unit :=
  if notebook_output sas then
    match model with
    | Some model => emit (Print (ModelImported (model_name model) (model_id model)))
    | None => emit (Print ImportFailed)
    end
  else mret tt.

Definition dict_truthy {V} (d : option (gmap string V)) : bool :=
  match d with
  | Some d => negb (bool_decide (d = ∅))
  | None => false
  end.

Definition list_truthy {A} (l : option (list A)) : bool :=
  match l with
  | Some (_ :: _) => true
  | _ => false
  end.

Definition import_model (sas : env) (a : arguments)
    : M event (option Model * model_files) :=
  let model_files := model_files_arg a in
  pickle_type ←
    (if dict_truthy (mlflow_details a) then
       lift (or_raise KeyError (default ∅ (mlflow_details a) !! "serialization_format"))
     else mret (pickle_type a));
  match input_data a, predict_method a, score_metrics a with
  | Some input_data, Some ((_ :: _) as predict_method), Some ((_ :: _) as score_metrics) =>
      let score_code (model : option Model) :=
        call (WriteScoreCode
                {| sc_model_prefix := model_prefix a;
                   sc_input_data := input_data;
                   sc_predict_method := predict_method;
                   sc_score_metrics := score_metrics;
                   sc_model := model;
                   sc_pickle_type := pickle_type;
                   sc_predict_threshold := predict_threshold a;
                   sc_score_code_path :=
                     match model_files with
                     | FilesDict _ => None
                     | FilesPath path => Some path
                     end;
                   sc_target_values := target_values a;
                   sc_missing_values := missing_values a;
                   sc_score_cas := score_cas a;
                   sc_kwargs := kwargs a |})
             (write_score_code sas) in
      version ← call VersionInfo (version_info sas);
      if version =? 4 then
        score_code_dict ← score_code None;
        '(zip_io_file, model_files) ←
          (if dict_truthy score_code_dict then
             match model_files with
             | FilesDict files =>
                 let model_files := FilesDict (default ∅ score_code_dict ∪ files) in
                 zip_io_file ← call (ZipFiles model_files (model_prefix a) true)
                                    (zip_files sas);
                 mret (zip_io_file, model_files)
             | FilesPath _ => raise AttributeError
             end
           else
             match model_files with
             | FilesDict _ => raise TypeError
             | FilesPath path =>
                 (if notebook_output sas
                  then emit (Print (ScoreCodeWritten path (model_prefix a)))
                  else mret tt);;
                 zip_io_file ← zip_model_files sas model_files (model_prefix a) true;
                 mret (zip_io_file, model_files)
             end);
        model ← check_and_import sas a zip_io_file;
        report_import sas model;;
        mret (model, model_files)
      else
        zip_io_file ← zip_model_files sas model_files (model_prefix a) false;
        model ← check_and_import sas a zip_io_file;
        report_import sas model;;
        score_code_dict ← score_code model;
        if dict_truthy score_code_dict then
          match model_files with
          | FilesDict files =>
              let model_files := FilesDict (default ∅ score_code_dict ∪ files) in
              model ← call (GetModel model) (get_model sas);
              mret (model, model_files)
          | FilesPath _ => raise AttributeError
          end
        else
          match model_files with
          | FilesDict _ => raise TypeError
          | FilesPath path =>
              (if notebook_output sas
               then emit (Print (ScoreCodeWritten path (model_prefix a)))
               else mret tt);;
              model ← call (GetModel model) (get_model sas);
              mret (model, model_files)
          end
  | _, _, _ =>
      emit (Warn ScoreCodeArgumentsRequired);;
      zip_io_file ← zip_model_files sas model_files (model_prefix a) false;
      model ← check_and_import sas a zip_io_file;
      mret (model, model_files)
  end.

End ImportModel.


(** ** Vocabulary of the properties *)

Import JSONFiles.

(** The float [2.5]. *)
Definition two_and_a_half : spec_float := S754_finite false 5629499534213120 (-51).

(** The numbers 1, 2 and 3, as [int] or as [float]. *)
Definition is_role_number (v : pyval) : bool :=
  match v with
  | PInt n => (1 <=? n) && (n <=? 3)
  | PFloat f =>
      SFeqb f (float_of_Z 1) || SFeqb f (float_of_Z 2) || SFeqb f (float_of_Z 3)
  | _ => false
  end.


(** An element of [tupleList] that the loop passes over: anything that is
    not a tuple of three, and a tuple of three whose name, once formatted,
    is not a valid parameter. *)
Definition ignored (paramTuple : pyval) : bool :=
  match paramTuple with
  | PTuple [PStr paramName; _; _] =>
      match formatParameter (PStr paramName) with
      | Ok paramName => negb (is_valid_param paramName)
      | Raise _ => false
      end
  | PTuple [_; _; _] => false
  | _ => true
  end.

(** Two rows that differ at most at the keys [keys] of their [dataMap]. *)
Definition same_but (keys : list string) (r r' : row) : Prop :=
  rowNumber r = rowNumber r' ∧ others r = others r' ∧
  ∀ k, k ∉ keys → dataMap r !! k = dataMap r' !! k.

(** Two rows that differ at most in the valid parameters of their
    [dataMap]. *)
Definition same_but_valid_params : row → row → Prop := same_but validParams.

(** The same, whatever the row numbers. *)
Definition same_content_but (keys : list string) (r r' : row) : Prop :=
  others r = others r' ∧ ∀ k, k ∉ keys → dataMap r !! k = dataMap r' !! k.

(** The keys that [generateROCLiftStat] writes in the [dataMap] of a row of
    each file. *)
Definition roc_keys : list string :=
  "_Event_" :: "_TargetName_" :: "_OneMinusSpecificity_" :: roc_columns.

Definition lift_keys : list string :=
  "_Event_" :: "_TargetName_" :: lift_columns.

(** The rows of partition [i] in a template with [n] rows for each
    partition. *)
Definition partition_rows (n : nat) (rows : list row) (i : nat) : list row :=
  take n (drop (i * n) rows).

(** The row numbers 1, 2, ... of a template are those of its positions. *)
Definition numbered (rows : list row) : Prop :=
  rowNumber <$> rows = Z.of_nat <$> seq 1 (length rows).

(** The numbers [l.remove] is called with for partition [i]. *)
Definition partition_numbers (n i : nat) : list Z :=
  (λ j, Z.of_nat (i * n + j) + 1) <$> seq 0 n.

(** [l.remove(x)] for each [x] of [xs] in turn. *)
Fixpoint remove_all (xs : list Z) (l : list Z) : option (list Z) :=
  match xs with
  | [] => Some l
  | x :: xs => l ← list_remove x l; remove_all xs l
  end.

(** The elements of a list at the positions that a mask marks. *)
Fixpoint select {A} (mask : list bool) (l : list A) : list A :=
  match mask, l with
  | b :: mask, x :: l => if b then x :: select mask l else select mask l
  | _, _ => []
  end.

(** A template with three rows, for the examples. *)
Definition template3 : json_doc :=
  {| data := [ {| dataMap := {[ "_DataRole_" := PStr "TRAIN" ]}; rowNumber := 1; others := ∅ |};
               {| dataMap := {[ "_DataRole_" := PStr "TEST" ]}; rowNumber := 2; others := ∅ |};
               {| dataMap := {[ "_DataRole_" := PStr "VALIDATE" ]}; rowNumber := 3; others := ∅ |} ];
     meta := {[ "name" := PStr "dmcas_fitstat" ]} |}.

(** A [tupleList] with one parameter for the TRAIN partition and two
    elements that are passed over. *)
Definition example_tuples : list pyval :=
  [PTuple [PStr "NObs"; PInt 3488; PStr "TRAIN"];
   PStr "KS";
   PTuple [PStr "Accuracy"; PInt 1; PInt 2]].

(** The keys that [calculateFitStat] writes in a partition's [dataMap]. *)
Definition fit_keys : list string := "_PartInd_" :: validParams.

(** Three observations, one per row and the actual value first: an array
    with the actual and the predicted values as its columns. *)
Definition column_array : dataset :=
  NdArray [[PInt 1; PInt 0]; [PInt 0; PInt 1]; [PInt 1; PInt 1]].

(** Statistics that answer with constants, for the examples. *)
Definition example_stats : stats :=
  {| roc_curve := λ _ _, Ok ([float_of_Z 0; float_of_Z 1], [float_of_Z 0; float_of_Z 1]);
     mean_squared_error := λ _ _, Ok (float_of_Z 4);
     roc_auc_score := λ _ _, Ok (float_of_Z 1);
     gamma_fit_scale := λ _, Ok (float_of_Z 2);
     accuracy_score := λ _ _, Ok (float_of_Z 1);
     log_loss := λ _ _, Ok (float_of_Z 0);
     kendalltau := λ _ _, Ok (float_of_Z 1);
     auc := λ _ _, Ok (float_of_Z 1) |}.

(** A data set of two observations, as a list of the actual and of the
    predicted values. *)
Definition example_data : dataset :=
  PyList [PList [PInt 1; PInt 0]; PList [PFloat (float_of_Z 1); PFloat (float_of_Z 0)]].

(** Some JSON file is written among the events [ev]. *)
Definition writes_file (ev : list event) : Prop :=
  ∃ jPath file doc, WriteJSON jPath file doc ∈ ev.

(** A run of [calculateFitStat] on the train partition. *)
Definition example_fit_run : result () * list event :=
  calculateFitStat example_stats template3 None (Some example_data) None "." [].

Definition is_write (e : event) : bool :=
  match e with
  | WriteJSON _ _ _ => true
  | _ => false
  end.

(** A template of [n] rows numbered from 1, a CAS session that answers
    every request with 100 zeros in each column, and a run of
    [generateROCLiftStat] on the validation partition, for the examples. *)
Definition example_rows (n : nat) : json_doc :=
  {| data := (λ i, {| dataMap := ∅; rowNumber := Z.of_nat i; others := ∅ |}) <$> seq 1 n;
     meta := ∅ |}.

Definition example_cas : cas :=
  {| fetched := λ _, list_to_map ((λ c, (c, replicate 100 (float_of_Z 0)))
                                    <$> (roc_columns ++ lift_columns));
     str := λ _, "0" |}.

Definition example_frame : dataset :=
  DataFrame [[PInt 1; PInt 0]; [PFloat (float_of_Z 1); PFloat (float_of_Z 0)]].

Definition example_roc_run : result () * list event :=
  generateROCLiftStat example_cas (example_rows 300) (example_rows 63)
    (PStr "BAD") (PInt 1) (Some example_frame) None None "." [].

(** A run of [writeBaseFitStat] in its three modes at once: a list of
    tuples, two parameters typed by the user, the second of them not valid,
    and a CSV file of one row. *)
Definition example_base_run : result () * list event :=
  writeBaseFitStat template3
    (Some ("stats.csv", [[PStr "ASE"; PFloat (float_of_Z 0); PInt 3]])) "." true
    ["KS"; "0.5"; "TEST"; "Y"; "Accuracy"; "N"] (Some example_tuples) [].


(** *** Vocabulary for [import_model.py] *)

Module ImportModelSpec.
Import ImportModel.

(** The models that a response of [mr.get] holds. *)
Definition response_models (r : models_response) : list Model :=
  match r with
  | NoModels => []
  | OneModel m => [m]
  | PagedList l => l
  end.

Definition named (name : string) (m : Model) : bool :=
  String.eqb (model_name m) name.

(** The path [model_exists] asks the models of a version at. *)
Definition models_path (project : RestObj) (v : version) : string :=
  "/projects/" +:+ id project +:+ "/projectVersions/" +:+ version_id v +:+ "/models".

(** The version that [model_exists] resolves a name to. *)
Definition resolved_version (project : RestObj) (version_name : string)
    (versions : list version) : option version :=
  List.find (λ v, String.eqb (if String.eqb version_name "latest"
                              then latestVersion project else version_name)
                             (ImportModel.version_name v))
            versions.

(** The steps of an import that the specification orders: the generation
    of the score code, with the model passed to it and the dictionary it
    returned, the zipping of the files, the two checks, and the import of
    the zip file, with the model it answered. *)
Inductive step :=
| Score (model : option Model) (score_code_dict : option (gmap string string))
| Zip (files : model_files) (is_viya4 : bool)
| ProjectCheck
| ModelCheck
| Import (zip_io_file : string) (model : option Model).

(** The steps among the events [new] that follow the trace [t]. *)
Fixpoint steps (sas : env) (t : list ImportModel.event) (new : list ImportModel.event)
    : list step :=
  match new with
  | [] => []
  | e :: new =>
      let t := t ++ [e] in
      match e with
      | WriteScoreCode args =>
          Score (sc_model args) (write_score_code sas t) :: steps sas t new
      | ZipFiles files _ is_viya4 => Zip files is_viya4 :: steps sas t new
      | Calls project_exists_check => ProjectCheck :: steps sas t new
      | Calls model_exists_check => ModelCheck :: steps sas t new
      | ImportModelFromZip _ _ zip_io_file _ =>
          Import zip_io_file (import_model_from_zip sas t) :: steps sas t new
      | _ => steps sas t new
      end
  end.

(** An event of a check or of a message, which is no step. *)
Definition quiet (e : ImportModel.event) : bool :=
  match e with
  | WriteScoreCode _ | ZipFiles _ _ _ | Calls _ | ImportModelFromZip _ _ _ _
  | VersionInfo => false
  | _ => true
  end.

(** The files as they are zipped and returned once the score code is
    generated. *)
Definition with_score_code (score_code_dict : option (gmap string string))
    (files : model_files) : model_files :=
  match files with
  | FilesDict d => if dict_truthy score_code_dict
                   then FilesDict (default ∅ score_code_dict ∪ d) else files
  | FilesPath _ => files
  end.

(** The dictionary [mlflow_details], when it is given and not empty, has
    the serialization format, as [read_mlflow_model_file] writes it. *)
Definition mlflow_ok (a : arguments) : bool :=
  negb (dict_truthy (mlflow_details a)) ||
  bool_decide (is_Some (default ∅ (mlflow_details a) !! "serialization_format")).

(** The three arguments that the generation of the score code needs are
    all supplied. *)
Definition score_code_requested (a : arguments) : bool :=
  bool_decide (is_Some (input_data a)) && list_truthy (predict_method a)
  && list_truthy (score_metrics a).

(** A repository with one project, whose version holds two models, and a
    session for it, for the examples. *)
Definition example_project : RestObj :=
  {| id := "p1"; name := "Loans"; latestVersion := "Version 1" |}.

Definition example_models : list Model :=
  [ {| model_id := "m1"; model_name := "tree" |};
    {| model_id := "m2"; model_name := "forest" |};
    {| model_id := "m3"; model_name := "tree" |} ].

Definition example_env (version : Z) : env :=
  {| notebook_output := true;
     uuid_parses := λ s, String.eqb s "12345678-1234-5678-1234-567812345678";
     version_info := λ _, version;
     write_score_code := λ t,
       match last t with
       | Some (WriteScoreCode args) =>
           match sc_score_code_path args with
           | None => Some {[ "score_tree.py" := "def score(): pass" ]}
           | Some _ => None
           end
       | _ => None
       end;
     zip_files := λ _, "zip";
     get_project := λ t,
       match last t with
       | Some (GetProject (ProjectName "Loans")) => Some example_project
       | Some (GetProject (ProjectObj p)) => Some p
       | _ => None
       end;
     default_repository_id := λ _, Some "repo";
     create_project := λ t,
       match last t with
       | Some (CreateProject (ProjectName s) _) =>
           {| id := "new"; name := s; latestVersion := "Version 1" |}
       | _ => example_project
       end;
     list_project_versions := λ _,
       [ {| version_name := "Version 1"; version_id := "v1" |} ];
     get_models := λ t,
       match last t with
       | Some (Get "/projects/p1/projectVersions/v1/models") => PagedList example_models
       | _ => NoModels
       end;
     import_model_from_zip := λ t,
       match last t with
       | Some (ImportModelFromZip name _ _ _) =>
           Some {| model_id := "m9"; model_name := name |}
       | _ => None
       end;
     get_model := λ t,
       match last t with
       | Some (GetModel m) => m
       | _ => None
       end |}.

Definition example_arguments (files : model_files) (prefix : string)
    (score_metrics : option (list string)) : arguments :=
  {| model_files_arg := files;
     model_prefix := prefix;
     project := ProjectName "Loans";
     input_data := Some [[PInt 1; PInt 2]];
     predict_method := Some [PStr "predict"; PList [PStr "A"]];
     score_metrics := score_metrics;
     pickle_type := "pickle";
     project_version := "latest";
     missing_values := false;
     overwrite_model := PBool false;
     score_cas := true;
     mlflow_details := None;
     predict_threshold := None;
     target_values := None;
     kwargs := ∅ |}.

(** An event that is neither the generation of score code, nor a zipping,
    nor a question about the version of the platform. *)
Definition check_event (e : event) : bool :=
  match e with
  | WriteScoreCode _ | ZipFiles _ _ _ | VersionInfo => false
  | _ => true
  end.

(** The exception [e] left one of the two checks with the trace [t']. *)
Definition raised_by_check (sas : env) (a : arguments) (e : exn) (t' : list event)
    : Prop :=
  (∃ response t1, project_exists sas (project a) response t1 = (Raise e, t')) ∨
  (∃ found t1, model_exists sas (ProjectObj found) (model_prefix a)
                 (overwrite_model a) (project_version a) t1 = (Raise e, t')).

(** The order of the steps when the score code is generated: before the
    zipping on SAS Viya 4, after the import on SAS Viya 3.5. *)
Definition step_order (viya4 : bool) (a : arguments)
    (score_code_dict : option (gmap string string)) (zip_io_file : string)
    (model : option Model) : list step :=
  if viya4
  then [Score None score_code_dict;
        Zip (with_score_code score_code_dict (model_files_arg a)) true;
        ProjectCheck; ModelCheck; Import zip_io_file model]
  else [Zip (model_files_arg a) false; ProjectCheck; ModelCheck;
        Import zip_io_file model; Score model score_code_dict].

(** The exception [e] comes from using a directory as a dictionary, or a
    dictionary as a directory, once the score code is generated. *)
Definition raised_by_files (a : arguments)
    (score_code_dict : option (gmap string string)) (e : exn) : Prop :=
  match model_files_arg a with
  | FilesPath _ => e = AttributeError ∧ dict_truthy score_code_dict = true
  | FilesDict _ => e = TypeError ∧ dict_truthy score_code_dict = false
  end.

(** Two runs of [import_model] on the example repository. *)
Definition example_import_without_score_code : result (option Model * model_files) * list event :=
  import_model (example_env 4) (example_arguments (FilesPath "/models") "boost" None) [].

Definition example_import (version : Z) : result (option Model * model_files) * list event :=
  import_model (example_env version)
    (example_arguments (FilesDict {[ "boost.pickle" := "bytes" ]}) "boost" (Some ["EM_CLASS"]))
    [].


End ImportModelSpec.

(** *** Vocabulary for [writeModelPropertiesJSON] *)

Module ModelPropertiesSpec.
Import ModelProperties.





End ModelPropertiesSpec.


(** ** Properties of [convertDataRole] *)



(** The float [2.5] is a number other than 1, 2 and 3, and it maps to TEST,
    not to TRAIN, because [int] truncates it to 2. *)
Lemma convertDataRole_truncates_float :
  valid_binary prec emax two_and_a_half = true ∧
  is_role_number (PFloat two_and_a_half) = false ∧
  convertDataRole (PFloat two_and_a_half) = Ok (PStr "TEST").
Proof. by vm_compute. Qed.

(** C10 (the code departs from it): the documentation of [convertDataRole]
    says that a data role that is not valid defaults to TRAIN, the valid ones
    being TRAIN, TEST, VALIDATE and 1, 2, 3.  The code calls [int] on a number
    before it compares: the float 2.5, which is none of 1, 2 and 3, maps to
    TEST, not to TRAIN, and on [nan] and on the infinities the function
    raises instead of returning. *)
Theorem convertDataRole_invalid_floats :
  valid_binary prec emax two_and_a_half = true ∧
  is_role_number (PFloat two_and_a_half) = false ∧
  convertDataRole (PFloat two_and_a_half) = Ok (PStr "TEST") ∧
  is_role_number (PFloat S754_nan) = false ∧
  convertDataRole (PFloat S754_nan) = Raise ValueError ∧
  (∀ s, is_role_number (PFloat (S754_infinity s)) = false ∧
        convertDataRole (PFloat (S754_infinity s)) = Raise OverflowError).
Proof. split_and!; try (by vm_compute). by intros []. Qed.



(** ** Running a computation *)

Lemma run_bind {E A B} (m : M E A) (k : A → M E B) t :
  (m ≫= k) t = match m t with
               | (Ok a, t') => k a t'
               | (Raise e, t') => (Raise e, t')
               end.
Proof. reflexivity. Qed.

Lemma run_lift_bind {E A B} (r : result A) (k : A → M E B) t :
  (lift r ≫= k) t = match r with
                    | Ok a => k a t
                    | Raise e => (Raise e, t)
                    end.
Proof. by destruct r. Qed.

Lemma foldM_app {A S} (body : S → A → result S) s l1 l2 :
  foldM body s (l1 ++ l2) = foldM body s l1 ≫= λ s, foldM body s l2.
Proof.
  revert s. induction l1 as [|x l1 IH]; intros s; simpl; [done|].
  destruct (body s x); simpl; [apply IH|done].
Qed.

(** ** Properties of [writeBaseFitStat] *)

#[local] Instance same_but_refl keys : Reflexive (same_but keys).
Proof. by intros r. Qed.

#[local] Instance same_but_trans keys : Transitive (same_but keys).
Proof.
  intros r1 r2 r3 (? & ? & H12) (? & ? & H23). split_and!; [congruence..|].
  intros k Hk. by rewrite H12, H23.
Qed.

#[local] Instance same_but_valid_params_refl : Reflexive same_but_valid_params.
Proof. apply same_but_refl. Qed.

#[local] Instance same_but_valid_params_trans : Transitive same_but_valid_params.
Proof. apply same_but_trans. Qed.

Lemma set_param_frame dataMap3 dataRole paramName paramValue dataMap3' :
  is_valid_param paramName = true →
  set_param dataMap3 dataRole paramName paramValue = Ok dataMap3' →
  Forall2 same_but_valid_params dataMap3' dataMap3.
Proof.
  intros Hvalid. unfold set_param.
  destruct (role_index dataRole) as [i|]; simpl; [|done].
  intros [= <-]. apply Forall2_alter_l; [reflexivity|].
  intros x y _ _ (? & ? & Hxy). split_and!; [done..|].
  intros k Hk. simpl. rewrite lookup_insert_ne; [by apply Hxy|].
  intros <-. apply Hk. by apply bool_decide_eq_true in Hvalid.
Qed.

Lemma tuple_step_frame dataMap3 paramTuple dataMap3' :
  tuple_step dataMap3 paramTuple = Ok dataMap3' →
  Forall2 same_but_valid_params dataMap3' dataMap3.
Proof.
  unfold tuple_step.
  destruct paramTuple as [| | | | |[|p0 [|p1 [|p2 [|]]]]|];
    try (intros [= <-]; reflexivity).
  destruct (formatParameter p0) as [paramName|]; simpl; [|done].
  destruct (is_valid_param paramName) eqn:Hvalid; simpl;
    [|intros [= <-]; reflexivity].
  destruct (match p2 with PStr _ => convertDataRole p2 | _ => Ok p2 end);
    simpl; [|done].
  by apply set_param_frame.
Qed.

Lemma tuple_loop_frame tupleList dataMap3 dataMap3' :
  foldM tuple_step dataMap3 tupleList = Ok dataMap3' →
  Forall2 same_but_valid_params dataMap3' dataMap3.
Proof.
  revert dataMap3. induction tupleList as [|x l IH]; intros dm; simpl.
  - intros [= <-]. reflexivity.
  - destruct (tuple_step dm x) as [dm1|] eqn:Hstep; simpl; [|done].
    intros Hl. apply IH in Hl. apply tuple_step_frame in Hstep.
    by etrans.
Qed.

Lemma tuple_step_ignored dataMap3 paramTuple :
  ignored paramTuple = true → tuple_step dataMap3 paramTuple = Ok dataMap3.
Proof.
  unfold ignored, tuple_step.
  destruct paramTuple as [| | | | |[|p0 [|p1 [|p2 [|]]]]|]; try done.
  destruct p0 as [| | | |s| |]; try done.
  destruct (formatParameter (PStr s)) as [paramName|]; simpl; [|done].
  by intros ->.
Qed.

Lemma tuple_loop_ignored tupleList dataMap3 :
  foldM tuple_step dataMap3 tupleList =
  foldM tuple_step dataMap3 (filter (λ x, ignored x = false) tupleList).
Proof.
  revert dataMap3. induction tupleList as [|x l IH]; intros dm; [done|].
  rewrite filter_cons. destruct (ignored x) eqn:Hx.
  - rewrite decide_False by done. simpl. rewrite tuple_step_ignored by done.
    apply IH.
  - rewrite decide_True by done. simpl.
    destruct (tuple_step dm x); simpl; [apply IH|done].
Qed.

Lemma with_data_id (doc : json_doc) : with_data (data doc) doc = doc.
Proof. by destruct doc. Qed.

(** C6: with [userInput] false and no CSV file, the document that
    [writeBaseFitStat] writes for a [tupleList] is the null template except,
    in the [dataMap] of its rows, at the thirteen valid parameters; the
    elements of the list that are not tuples of three, and those whose
    formatted name is not a valid parameter, are passed over, and a list of
    such elements alone writes the template itself. *)
Theorem writeBaseFitStat_frame (nullJSONDict : json_doc) (jPath : string)
    (stdin : list string) (tupleList : list pyval) (t : list event) :
  (∀ t', writeBaseFitStat nullJSONDict None jPath false stdin (Some tupleList) t
           = (Ok (), t') →
         ∃ outJSON, t' = t ++ [WriteJSON jPath "dmcas_fitstat.json" outJSON] ∧
                    meta outJSON = meta nullJSONDict ∧
                    Forall2 same_but_valid_params (data outJSON) (data nullJSONDict)) ∧
  writeBaseFitStat nullJSONDict None jPath false stdin (Some tupleList) t =
    writeBaseFitStat nullJSONDict None jPath false stdin
      (Some (filter (λ x, ignored x = false) tupleList)) t ∧
  ((3 ≤ length (data nullJSONDict))%nat →
   Forall (λ x, ignored x = true) tupleList →
   writeBaseFitStat nullJSONDict None jPath false stdin (Some tupleList) t =
     (Ok (), t ++ [WriteJSON jPath "dmcas_fitstat.json" nullJSONDict])).
Proof.
  unfold writeBaseFitStat. split_and!.
  - intros t'. rewrite run_lift_bind. case_decide; [|done].
    rewrite run_lift_bind.
    destruct (foldM _ _ tupleList) as [dm|] eqn:Hloop; [|done].
    intros [= <-]. eexists. split_and!; [done..|]. simpl.
    apply tuple_loop_frame in Hloop.
    rewrite <- (take_drop 3 (data nullJSONDict)) at 2.
    by apply Forall2_app.
  - rewrite !run_lift_bind. case_decide; [|done].
    by rewrite tuple_loop_ignored.
  - intros Hlen Hall. rewrite run_lift_bind, decide_True by done.
    rewrite tuple_loop_ignored.
    replace (filter _ tupleList) with (@nil pyval).
    + unfold_leibniz. simpl. unfold mbind, M_bind, mret, M_ret, emit. simpl.
      by rewrite take_drop, with_data_id.
    + clear -Hall. induction Hall as [|x l Hx _ IH]; [done|].
      rewrite filter_cons, decide_False; [done|by rewrite Hx].
Qed.

Lemma writeBaseFitStat_frame_witness :
  (∃ outJSON,
     (writeBaseFitStat template3 None "." false [] (Some example_tuples) []).2
       = [] ++ [WriteJSON "." "dmcas_fitstat.json" outJSON] ∧
     meta outJSON = meta template3 ∧
     Forall2 same_but_valid_params (data outJSON) (data template3)) ∧
  writeBaseFitStat template3 None "." false [] (Some (drop 1 example_tuples)) []
    = (Ok (), [] ++ [WriteJSON "." "dmcas_fitstat.json" template3]).
Proof.
  split.
  - apply (proj1 (writeBaseFitStat_frame template3 "." [] example_tuples [])).
    reflexivity.
  - apply (proj2 (proj2 (writeBaseFitStat_frame template3 "." []
                           (drop 1 example_tuples) []))).
    + simpl. lia.
    + repeat constructor.
Defined.

(** ** Properties of [calculateFitStat] *)

Ltac step_result :=
  match goal with
  | |- context [@mbind result _ _ _ _ ?r] =>
      let H := fresh "Hcall" in
      destruct r eqn:H; cbn [mbind result_bind]; [|discriminate]
  end.

Ltac lookup_written :=
  repeat (rewrite lookup_insert_ne by discriminate); apply lookup_insert_eq.

(** The statistics of one partition: the defining relations between the
    values written, and the keys left alone. *)
Lemma fit_statistics_relations sk j dataSet fitStats fitStats' :
  fit_statistics sk j dataSet fitStats = Ok fitStats' →
  ∃ actual predicted ASE NObs,
    py_index dataSet 0 = Ok actual ∧ py_index dataSet 1 = Ok predicted ∧
    mean_squared_error sk actual predicted = Ok ASE ∧
    py_len actual = Ok NObs ∧
    fitStats' !! "_ASE_" = Some (PFloat ASE) ∧
    fitStats' !! "_RASE_" = Some (PFloat (SFsqrt prec emax ASE)) ∧
    fitStats' !! "_NObs_" = Some (PInt NObs) ∧
    fitStats' !! "_DIV_" = Some (PInt NObs) ∧
    fitStats' !! "_PartInd_" = Some (PInt (Z.of_nat j)) ∧
    ∀ k, k ∉ fit_keys → fitStats' !! k = fitStats !! k.
Proof.
  unfold fit_statistics.
  destruct (py_index dataSet 0) as [actual|] eqn:Hactual;
    cbn [mbind result_bind]; [|done].
  destruct (py_index dataSet 1) as [predicted|] eqn:Hpredicted;
    cbn [mbind result_bind]; [|done].
  destruct (roc_curve sk actual predicted) as [[fpr tpr]|];
    cbn [mbind result_bind]; [|done].
  destruct (mean_squared_error sk actual predicted) as [ASE|] eqn:Hmse;
    cbn [mbind result_bind]; [|done].
  destruct (py_len actual) as [NObs|] eqn:Hlen; cbn [mbind result_bind]; [|done].
  repeat step_result.
  intros [= <-]. exists actual, predicted, ASE, NObs.
  split_and!; [done..|lookup_written|lookup_written|lookup_written
              |lookup_written|lookup_written|].
  intros k Hk. unfold fit_keys, validParams in Hk.
  rewrite !lookup_insert_ne; [done|intros <-; apply Hk; by repeat constructor..].
Qed.

Lemma calculateFitStat_run sk nullJSONDict validateData trainData testData jPath t :
  calculateFitStat sk nullJSONDict validateData trainData testData jPath t =
  match provided validateData trainData testData with
  | [] => (Raise ValueError, t ++ [Print no_data_message])
  | dataSets =>
      match foldM (fit_partition sk) nullJSONDict dataSets with
      | Ok doc => (Ok (), t ++ [WriteJSON jPath "dmcas_fitstat.json" doc])
      | Raise e => (Raise e, t)
      end
  end.
Proof.
  unfold calculateFitStat.
  destruct validateData, trainData, testData; try reflexivity;
    rewrite run_bind; cbn [decide]; simpl decide;
    rewrite run_lift_bind; by destruct (foldM _ _ _).
Qed.

Lemma provided_nil validateData trainData testData :
  provided validateData trainData testData = [] →
  validateData = None ∧ trainData = None ∧ testData = None.
Proof. by destruct validateData, trainData, testData. Qed.

(** The partitions are enumerated as validate, train, test: these are the
    rows 0, 1 and 2 that [calculateFitStat] writes them to. *)
Lemma provided_indices validateData trainData testData :
  provided validateData trainData testData =
  option_list ((0%nat,.) <$> validateData) ++
  option_list ((1%nat,.) <$> trainData) ++
  option_list ((2%nat,.) <$> testData).
Proof. by destruct validateData, trainData, testData. Qed.

(** [calculateFitStat] on the train partition alone: row 1 of the template
    receives the statistics, and nothing else changes. *)
Lemma calculateFitStat_train sk nullJSONDict trainData jPath t t' :
  calculateFitStat sk nullJSONDict None (Some trainData) None jPath t = (Ok (), t') →
  ∃ entry fitStats,
    data nullJSONDict !! 1%nat = Some entry ∧
    fit_statistics sk 1 (as_lists trainData) (dataMap entry) = Ok fitStats ∧
    t' = t ++ [WriteJSON jPath "dmcas_fitstat.json"
                 (with_data (<[1%nat := with_dataMap fitStats entry]> (data nullJSONDict))
                            nullJSONDict)].
Proof.
  rewrite calculateFitStat_run. simpl.
  destruct (data nullJSONDict !! 1%nat) as [entry|]; simpl; [|done].
  destruct (fit_statistics _ _ _ _) as [fitStats|] eqn:Hstats; simpl; [|done].
  intros [= <-]. by exists entry, fitStats.
Qed.

(** C9: with no data set at all, [calculateFitStat] and
    [generateROCLiftStat] each raise [ValueError] after printing the message,
    and write no file; a run of either that writes a file was given at least
    one partition. *)
Theorem no_data_raises_and_writes_nothing (sk : stats) (conn : cas)
    (nullJSONDict nullJSONROCDict nullJSONLiftDict : json_doc)
    (targetName targetValue : pyval) (jPath : string) (t : list event) :
  calculateFitStat sk nullJSONDict None None None jPath t
    = (Raise ValueError, t ++ [Print no_data_message]) ∧
  generateROCLiftStat conn nullJSONROCDict nullJSONLiftDict targetName targetValue
      None None None jPath t
    = (Raise ValueError, t ++ [Print no_data_message]) ∧
  ¬ writes_file [Print no_data_message] ∧
  (∀ validateData trainData testData r ev,
     calculateFitStat sk nullJSONDict validateData trainData testData jPath t
       = (r, t ++ ev) →
     writes_file ev →
     validateData ≠ None ∨ trainData ≠ None ∨ testData ≠ None) ∧
  (∀ validateData trainData testData r ev,
     generateROCLiftStat conn nullJSONROCDict nullJSONLiftDict targetName targetValue
         validateData trainData testData jPath t
       = (r, t ++ ev) →
     writes_file ev →
     validateData ≠ None ∨ trainData ≠ None ∨ testData ≠ None).
Proof.
  assert (Hnone : ¬ writes_file [Print no_data_message]).
  { intros (p & f & d & Hin). apply list_elem_of_singleton in Hin. discriminate. }
  split_and!; [reflexivity..|done| |].
  - intros [v|] [tr|] [te|] r ev Hrun Hw; auto.
    injection Hrun as _ Hev. apply app_inv_head in Hev. by subst ev.
  - intros [v|] [tr|] [te|] r ev Hrun Hw; auto.
    injection Hrun as _ Hev. apply app_inv_head in Hev. by subst ev.
Qed.

Lemma no_data_raises_and_writes_nothing_witness :
  writes_file example_fit_run.2 ∧
  (@None dataset ≠ None ∨ Some example_data ≠ None ∨ @None dataset ≠ None).
Proof.
  assert (Hw : writes_file example_fit_run.2).
  { eexists _, _, _. vm_compute. apply list_elem_of_singleton. reflexivity. }
  split; [exact Hw|].
  apply (proj1 (proj2 (proj2 (proj2 (no_data_raises_and_writes_nothing
           example_stats {| fetched := λ _, ∅; str := λ _, "" |}
           template3 template3 template3 PNone PNone "." []))))
         None (Some example_data) None example_fit_run.1 example_fit_run.2).
  - unfold example_fit_run. by destruct (calculateFitStat _ _ _ _ _ _ _).
  - exact Hw.
Defined.

(** C4 (the code departs from it): the array [column_array] holds three
    observations, the actual and the predicted values being its columns as
    the documentation allows.  Whatever the statistics answer, a call that
    returns has written [_NObs_] and [_DIV_] as 2, the length of the first
    row, in the train partition's [dataMap]; [_RASE_] is the square root of
    [_ASE_] there as well. *)
Theorem calculateFitStat_column_array (sk : stats) (nullJSONDict : json_doc)
    (jPath : string) (t t' : list event) :
  calculateFitStat sk nullJSONDict None (Some column_array) None jPath t = (Ok (), t') →
  ∃ doc entry ASE,
    t' = t ++ [WriteJSON jPath "dmcas_fitstat.json" doc] ∧
    data doc !! 1%nat = Some entry ∧
    dataMap entry !! "_NObs_" = Some (PInt 2) ∧
    dataMap entry !! "_DIV_" = Some (PInt 2) ∧
    dataMap entry !! "_ASE_" = Some (PFloat ASE) ∧
    dataMap entry !! "_RASE_" = Some (PFloat (SFsqrt prec emax ASE)).
Proof.
  intros Hrun. apply calculateFitStat_train in Hrun as (entry & fitStats & He & Hfit & ->).
  apply fit_statistics_relations in Hfit
    as (actual & predicted & ASE & NObs & Ha & _ & _ & Hlen & HASE & HRASE & HNObs & HDIV & _).
  injection Ha as <-. injection Hlen as <-.
  eexists _, (with_dataMap fitStats entry), ASE. split_and!; [done| |done..].
  simpl. apply list_lookup_insert_eq. by eapply lookup_lt_Some.
Qed.

Lemma calculateFitStat_column_array_witness :
  ∃ doc entry ASE,
    (calculateFitStat example_stats template3 None (Some column_array) None "." []).2
      = [] ++ [WriteJSON "." "dmcas_fitstat.json" doc] ∧
    data doc !! 1%nat = Some entry ∧
    dataMap entry !! "_NObs_" = Some (PInt 2) ∧
    dataMap entry !! "_DIV_" = Some (PInt 2) ∧
    dataMap entry !! "_ASE_" = Some (PFloat ASE) ∧
    dataMap entry !! "_RASE_" = Some (PFloat (SFsqrt prec emax ASE)).
Proof.
  apply (calculateFitStat_column_array example_stats template3 "." []).
  reflexivity.
Defined.


(** C5 (the code departs from it): the two writers do not agree on the row
    of a partition.  Given the train partition alone, [calculateFitStat]
    leaves row 0 of the template as it is and writes the statistics, with
    [_PartInd_] 1, to row 1; given a parameter with the data role TRAIN,
    [writeBaseFitStat] writes it to row 0 and leaves row 1 as it is. *)
Theorem train_partition_rows_differ (sk : stats) (nullJSONDict : json_doc)
    (trainData : dataset) (paramValue : pyval) (jPath : string)
    (t t1 t2 : list event) :
  calculateFitStat sk nullJSONDict None (Some trainData) None jPath t = (Ok (), t1) →
  writeBaseFitStat nullJSONDict None jPath false []
    (Some [PTuple [PStr "NObs"; paramValue; PStr "TRAIN"]]) t = (Ok (), t2) →
  ∃ doc1 doc2 row0 row1 fitStats,
    t1 = t ++ [WriteJSON jPath "dmcas_fitstat.json" doc1] ∧
    t2 = t ++ [WriteJSON jPath "dmcas_fitstat.json" doc2] ∧
    data nullJSONDict !! 0%nat = Some row0 ∧
    data nullJSONDict !! 1%nat = Some row1 ∧
    data doc1 !! 0%nat = Some row0 ∧
    data doc1 !! 1%nat = Some (with_dataMap fitStats row1) ∧
    fitStats !! "_PartInd_" = Some (PInt 1) ∧
    is_Some (fitStats !! "_NObs_") ∧
    data doc2 !! 0%nat = Some (with_dataMap (<["_NObs_" := paramValue]> (dataMap row0)) row0) ∧
    data doc2 !! 1%nat = Some row1.
Proof.
  intros Hcalc Hbase.
  apply calculateFitStat_train in Hcalc as (row1 & fitStats & Hrow1 & Hfit & ->).
  apply fit_statistics_relations in Hfit
    as (? & ? & ? & NObs & _ & _ & _ & _ & _ & _ & HNObs & _ & HPart & _).
  unfold writeBaseFitStat in Hbase. rewrite run_lift_bind in Hbase.
  case_decide as Hlen; [|done].
  destruct (data nullJSONDict) as [|row0 [|row1' [|row2 rest]]] eqn:Hdata;
    simpl in Hlen; try lia.
  injection Hrow1 as ->.
  injection Hbase as <-.
  eexists _, _, row0, row1, fitStats. by split_and!.
Qed.

Lemma train_partition_rows_differ_witness :
  ∃ doc1 doc2 row0 row1 fitStats,
    (calculateFitStat example_stats template3 None (Some example_data) None "." []).2
      = [] ++ [WriteJSON "." "dmcas_fitstat.json" doc1] ∧
    (writeBaseFitStat template3 None "." false []
       (Some [PTuple [PStr "NObs"; PInt 2; PStr "TRAIN"]]) []).2
      = [] ++ [WriteJSON "." "dmcas_fitstat.json" doc2] ∧
    data template3 !! 0%nat = Some row0 ∧
    data template3 !! 1%nat = Some row1 ∧
    data doc1 !! 0%nat = Some row0 ∧
    data doc1 !! 1%nat = Some (with_dataMap fitStats row1) ∧
    fitStats !! "_PartInd_" = Some (PInt 1) ∧
    is_Some (fitStats !! "_NObs_") ∧
    data doc2 !! 0%nat = Some (with_dataMap (<["_NObs_" := PInt 2]> (dataMap row0)) row0) ∧
    data doc2 !! 1%nat = Some row1.
Proof.
  apply (train_partition_rows_differ example_stats template3 example_data (PInt 2) "." []);
    reflexivity.
Defined.

(** ** Properties of [generateROCLiftStat] *)

Lemma Forall2_same_but_refl keys (rows : list row) : Forall2 (same_but keys) rows rows.
Proof. apply Forall_Forall2_diag, Forall_forall. intros r _. reflexivity. Qed.

Lemma copy_columns_frame conn table columns j dm dm' :
  copy_columns conn table columns j dm = Ok dm' →
  ∀ k, k ∉ columns → dm' !! k = dm !! k.
Proof.
  unfold copy_columns. revert dm.
  induction columns as [|c columns IH]; intros dm; simpl.
  - by intros [= <-].
  - destruct (cell table c j) as [x|]; simpl; [|done].
    intros Hloop k Hk. apply not_elem_of_cons in Hk as [Hc Hk].
    rewrite (IH _ Hloop k Hk). by rewrite lookup_insert_ne.
Qed.

(** Writing the [dataMap] of one row at keys of [keys] keeps the rows the
    same but at [keys]. *)
Lemma set_row_frame keys (rows : list row) i r dm :
  rows !! i = Some r →
  (∀ k, k ∉ keys → dm !! k = dataMap r !! k) →
  Forall2 (same_but keys) (<[i := with_dataMap dm r]> rows) rows.
Proof.
  intros Hi Hdm. rewrite <- (list_insert_id rows i r Hi) at 2.
  apply Forall2_insert; [apply Forall2_same_but_refl|]. by split_and!.
Qed.

Lemma roc_row_step conn targetName targetValue assessROC i nullROCRow rocData j
    nullROCRow' rocData' :
  roc_row conn targetName targetValue assessROC i (nullROCRow, rocData) j
    = Ok (nullROCRow', rocData') →
  list_remove (Z.of_nat (i * 100 + j) + 1) nullROCRow = Some nullROCRow' ∧
  Forall2 (same_but roc_keys) rocData' rocData.
Proof.
  unfold roc_row.
  destruct (list_remove _ nullROCRow) as [nr|]; cbn [or_raise mbind result_bind]; [|done].
  destruct (rocData !! _) as [r|] eqn:Hr; cbn [or_raise mbind result_bind]; [|done].
  destruct (copy_columns _ _ _ _ _) as [dm|] eqn:Hcopy; cbn [mbind result_bind]; [|done].
  destruct (cell _ _ _) as [x|]; cbn [mbind result_bind]; [|done].
  intros [= <- <-]. split; [done|].
  apply set_row_frame; [done|].
  intros k Hk. unfold roc_keys in Hk.
  apply not_elem_of_cons in Hk as [? Hk]. apply not_elem_of_cons in Hk as [? Hk].
  apply not_elem_of_cons in Hk as [? Hk].
  rewrite lookup_insert_ne by done.
  rewrite (copy_columns_frame _ _ _ _ _ _ Hcopy k Hk).
  by rewrite !lookup_insert_ne.
Qed.

Lemma lift_row_step conn targetName targetValue assessLift i nullLiftRow liftData j
    nullLiftRow' liftData' :
  lift_row conn targetName targetValue assessLift i (nullLiftRow, liftData) j
    = Ok (nullLiftRow', liftData') →
  list_remove (Z.of_nat (i * 21 + j) + 1) nullLiftRow = Some nullLiftRow' ∧
  Forall2 (same_but lift_keys) liftData' liftData.
Proof.
  unfold lift_row.
  destruct (list_remove _ nullLiftRow) as [nr|]; cbn [or_raise mbind result_bind]; [|done].
  destruct (liftData !! _) as [r|] eqn:Hr; cbn [or_raise mbind result_bind]; [|done].
  match goal with
  | |- context [@mbind result _ _ _ _ ?x] => destruct x as [dm|] eqn:Hdm
  end; cbn [mbind result_bind]; [|done].
  intros [= <- <-]. split; [done|].
  apply set_row_frame; [done|].
  intros k Hk. unfold lift_keys in Hk.
  apply not_elem_of_cons in Hk as [? Hk]. apply not_elem_of_cons in Hk as [? Hk].
  destruct (decide (j ≠ 0%nat)).
  - rewrite (copy_columns_frame _ _ _ _ _ _ Hdm k Hk). by rewrite !lookup_insert_ne.
  - injection Hdm as <-. by rewrite !lookup_insert_ne.
Qed.

(** A loop over the rows of a partition removes their numbers one by one
    and keeps the rows the same but at the keys written. *)
Lemma rows_loop (step : list Z * list row → nat → result (list Z * list row))
    (number : nat → Z) (keys : list string) :
  (∀ nullRow rows j nullRow' rows',
     step (nullRow, rows) j = Ok (nullRow', rows') →
     list_remove (number j) nullRow = Some nullRow' ∧
     Forall2 (same_but keys) rows' rows) →
  ∀ js nullRow rows nullRow' rows',
    foldM step (nullRow, rows) js = Ok (nullRow', rows') →
    remove_all (number <$> js) nullRow = Some nullRow' ∧
    Forall2 (same_but keys) rows' rows.
Proof.
  intros Hstep js. induction js as [|j js IH]; intros nr rows nr' rows'; simpl.
  - intros [= <- <-]. split; [done|apply Forall2_same_but_refl].
  - destruct (step (nr, rows) j) as [[nr1 rows1]|] eqn:Hj; simpl; [|done].
    intros Hjs. apply Hstep in Hj as [Hrem1 Hrows1].
    apply IH in Hjs as [Hrem Hrows']. split; [|by etrans].
    change (list_remove (number j) nr ≫= remove_all (number <$> js) = Some nr').
    by rewrite Hrem1.
Qed.

Lemma no_write_no_file ev : Forall (λ e, is_write e = false) ev → ¬ writes_file ev.
Proof.
  intros Hall (p & f & d & Hin). by apply (proj1 (Forall_forall _ _) Hall) in Hin.
Qed.

Lemma remove_all_app xs ys l :
  remove_all (xs ++ ys) l = remove_all xs l ≫= remove_all ys.
Proof.
  revert l. induction xs as [|x xs IH]; intros l; simpl; [done|].
  destruct (list_remove x l); simpl; [apply IH|done].
Qed.

(** One partition: four calls to CAS, the numbers of the partition's rows
    removed, and the rows the same but at the keys written. *)
Lemma assess_partition_run conn targetName targetValue st i dataSet t st' t' :
  assess_partition conn targetName targetValue st (i, dataSet) t = (Ok st', t') →
  (∃ ev, t' = t ++ ev ∧ Forall (λ e, is_write e = false) ev) ∧
  remove_all (partition_numbers 100 i) (nullROCRow st) = Some (nullROCRow st') ∧
  Forall2 (same_but roc_keys) (rocData st') (rocData st) ∧
  remove_all (partition_numbers 21 i) (nullLiftRow st) = Some (nullLiftRow st') ∧
  Forall2 (same_but lift_keys) (liftData st') (liftData st).
Proof.
  unfold assess_partition. rewrite run_lift_bind.
  destruct dataSet as [scored|]; cbn [or_raise]; [|done].
  rewrite run_bind. cbn [emit]. rewrite run_bind. cbn [emit].
  rewrite run_bind. cbn [call]. rewrite run_bind. cbn [call].
  rewrite run_lift_bind.
  destruct (foldM (roc_row _ _ _ _ _) _ _) as [[nr rows]|] eqn:Hroc; [|done].
  rewrite run_lift_bind.
  destruct (foldM (lift_row _ _ _ _ _) _ _) as [[nl lrows]|] eqn:Hlift; [|done].
  intros [= <- <-]. cbn [nullROCRow rocData nullLiftRow liftData].
  apply (rows_loop _ (λ j, Z.of_nat (i * 100 + j) + 1) roc_keys) in Hroc
    as [Hnr Hrows]; [|intros; by eapply roc_row_step].
  apply (rows_loop _ (λ j, Z.of_nat (i * 21 + j) + 1) lift_keys) in Hlift
    as [Hnl Hlrows]; [|intros; by eapply lift_row_step].
  split_and!; try done.
  eexists. rewrite <- !(assoc_L (++)). split; [done|]. by repeat constructor.
Qed.

Lemma assess_partitions_run conn targetName targetValue dataSets st t st' t' :
  mfoldM (assess_partition conn targetName targetValue) st dataSets t = (Ok st', t') →
  (∃ ev, t' = t ++ ev ∧ Forall (λ e, is_write e = false) ev) ∧
  remove_all (dataSets.*1 ≫= partition_numbers 100) (nullROCRow st)
    = Some (nullROCRow st') ∧
  Forall2 (same_but roc_keys) (rocData st') (rocData st) ∧
  remove_all (dataSets.*1 ≫= partition_numbers 21) (nullLiftRow st)
    = Some (nullLiftRow st') ∧
  Forall2 (same_but lift_keys) (liftData st') (liftData st).
Proof.
  revert st t. induction dataSets as [|[i dataSet] dataSets IH]; intros st t.
  - intros [= <- <-]. split_and!; try done; try apply Forall2_same_but_refl.
    exists []. by rewrite app_nil_r.
  - cbn [mfoldM]. rewrite run_bind.
    destruct (assess_partition _ _ _ _ _ _) as [[st1|] t1] eqn:Hone; [|done].
    intros Hrest. apply assess_partition_run in Hone
      as ((ev1 & -> & Hev1) & Hnr1 & Hrows1 & Hnl1 & Hlrows1).
    apply IH in Hrest as ((ev2 & -> & Hev2) & Hnr2 & Hrows2 & Hnl2 & Hlrows2).
    split_and!.
    + exists (ev1 ++ ev2). rewrite (assoc_L (++)). split; [done|].
      by apply Forall_app.
    + rewrite fmap_cons, bind_cons, remove_all_app. cbn [fst]. by rewrite Hnr1.
    + by etrans.
    + rewrite fmap_cons, bind_cons, remove_all_app. cbn [fst]. by rewrite Hnl1.
    + by etrans.
Qed.

Lemma to_frames_indices (parts : list (nat * dataset)) dataSets :
  mapM (λ p, (p.1,.) <$> to_frame p.2) parts = Ok dataSets →
  dataSets.*1 = parts.*1.
Proof.
  revert dataSets. induction parts as [|[i d] parts IH]; intros dataSets; simpl.
  - by intros [= <-].
  - destruct (to_frame d) as [f|]; simpl; [|done].
    destruct (mapM _ parts) as [fs|]; simpl; [|done].
    intros [= <-]. simpl. f_equal. by apply IH.
Qed.

(** Popping, from the last row to the first, those whose number is in
    [nullRow] keeps the rows whose number is not. *)
Lemma pop_rows_filter nullRow rows :
  pop_rows nullRow rows = filter (λ r, rowNumber r ∉ nullRow) rows.
Proof.
  unfold pop_rows.
  enough (∀ suffix,
    fold_left (λ rows p, if bool_decide (rowNumber p.2 ∈ nullRow)
                         then delete p.1 rows else rows)
              (reverse (imap pair rows)) (rows ++ suffix)
    = filter (λ r, rowNumber r ∉ nullRow) rows ++ suffix) as H.
  { specialize (H []). by rewrite !app_nil_r in H. }
  induction rows as [|x rows IH] using rev_ind; intros suffix; [done|].
  rewrite imap_app, reverse_app. cbn [imap reverse rev_append app fold_left snd fst].
  rewrite Nat.add_0_r, filter_app, <- !(assoc_L (++)). cbn [app].
  case_bool_decide as Hx.
  - rewrite delete_middle, IH. rewrite filter_cons, decide_False by tauto.
    by rewrite filter_nil.
  - rewrite IH. rewrite filter_cons, decide_True by done.
    by rewrite filter_nil.
Qed.

Lemma renumber_numbers_from (n : nat) (rows : list row) :
  rowNumber <$> imap (λ i r, with_rowNumber (Z.of_nat (n + i) + 1) r) rows
  = Z.of_nat <$> seq (S n) (length rows).
Proof.
  revert n. induction rows as [|r rows IH]; intros n; [done|].
  cbn [imap length seq fmap list_fmap]. f_equal.
  - cbn. lia.
  - rewrite <- IH. f_equal. apply imap_ext. intros i x _. cbn. f_equal. lia.
Qed.

Lemma renumber_numbered rows : numbered (renumber rows).
Proof.
  unfold numbered, renumber. rewrite length_imap.
  apply (renumber_numbers_from 0).
Qed.

Lemma renumber_content keys (g : nat → Z) rows rows' :
  Forall2 (same_but keys) rows rows' →
  Forall2 (same_content_but keys) (imap (λ i r, with_rowNumber (g i) r) rows) rows'.
Proof.
  intros H. revert g. induction H as [|r r' rows rows' (_ & ? & ?) _ IH]; intros g.
  - constructor.
  - cbn [imap]. constructor; [by split|]. apply (IH (g ∘ S)).
Qed.

Lemma same_but_content keys rows rows' :
  Forall2 (same_but keys) rows rows' → Forall2 (same_content_but keys) rows rows'.
Proof. intros H. eapply Forall2_impl; [exact H|]. by intros r r' (_ & ? & ?). Qed.

Lemma same_but_numbers keys rows rows' :
  Forall2 (same_but keys) rows rows' → rowNumber <$> rows = rowNumber <$> rows'.
Proof.
  induction 1 as [|r r' rows rows' (? & _ & _) _ IH]; [done|].
  cbn [fmap list_fmap]. by f_equal.
Qed.

Lemma filter_select (P : Z → Prop) `{!∀ n, Decision (P n)} (rows : list row) :
  filter (λ r, P (rowNumber r)) rows
  = select ((λ n, bool_decide (P n)) <$> (rowNumber <$> rows)) rows.
Proof.
  induction rows as [|r rows IH]; [done|].
  rewrite filter_cons. cbn [fmap list_fmap select].
  case_bool_decide; [rewrite decide_True by done|rewrite decide_False by done];
    by rewrite IH.
Qed.

Lemma select_replicate {A} (n : nat) (b : bool) (mask : list bool) (l : list A) :
  (n ≤ length l)%nat →
  select (replicate n b ++ mask) l
  = (if b then take n l else []) ++ select mask (drop n l).
Proof.
  revert l. induction n as [|n IH]; intros l Hn.
  - by destruct b.
  - destruct l as [|x l]; simpl in Hn; [lia|].
    cbn [replicate app select take drop]. rewrite IH by lia. by destruct b.
Qed.

Lemma select_nil {A} (l : list A) : select [] l = [].
Proof. by destruct l. Qed.

Lemma partition_rows_length n rows i :
  (i < 3)%nat → length rows = (3 * n)%nat → length (partition_rows n rows i) = n.
Proof.
  intros Hi Hlen. unfold partition_rows. rewrite length_take, length_drop. nia.
Qed.

Lemma all_partition_rows n rows :
  length rows = (3 * n)%nat → [0; 1; 2]%nat ≫= partition_rows n rows = rows.
Proof.
  intros Hlen. cbn [mbind list_bind]. unfold partition_rows.
  rewrite app_nil_r, Nat.mul_0_l, Nat.mul_1_l. cbn [drop].
  replace (take n (drop (2 * n) rows)) with (drop n (drop n rows)).
  - by rewrite !take_drop.
  - rewrite drop_drop. replace (n + n)%nat with (2 * n)%nat by lia.
    symmetry. apply take_ge. rewrite length_drop. lia.
Qed.

Lemma mask_blocks (n : nat) (parts : list nat) (nullRow : list Z) :
  n = 100%nat ∨ n = 21%nat →
  parts ∈ [[0]; [1]; [2]; [0; 1]; [0; 2]; [1; 2]; [0; 1; 2]]%nat →
  remove_all (parts ≫= partition_numbers n) (Z.of_nat <$> seq 1 (3 * n)) = Some nullRow →
  (λ k, bool_decide (k ∉ nullRow)) <$> (Z.of_nat <$> seq 1 (3 * n))
  = replicate n (bool_decide (0%nat ∈ parts)) ++
    replicate n (bool_decide (1%nat ∈ parts)) ++
    replicate n (bool_decide (2%nat ∈ parts)) ++ [].
Proof.
  intros Hn Hparts Hrem.
  destruct Hn as [-> | ->];
    repeat (apply elem_of_cons in Hparts as [->|Hparts]);
    try (by apply elem_of_nil in Hparts).
  all: vm_compute in Hrem; injection Hrem as <-.
  all: vm_compute; reflexivity.
Qed.

Lemma select_blocks (n : nat) (parts : list nat) (rows : list row) :
  length rows = (3 * n)%nat →
  parts ∈ [[0]; [1]; [2]; [0; 1]; [0; 2]; [1; 2]; [0; 1; 2]]%nat →
  select (replicate n (bool_decide (0%nat ∈ parts)) ++
          replicate n (bool_decide (1%nat ∈ parts)) ++
          replicate n (bool_decide (2%nat ∈ parts)) ++ []) rows
  = parts ≫= partition_rows n rows.
Proof.
  intros Hlen Hparts.
  rewrite !select_replicate, select_nil, drop_drop by (rewrite ?length_drop; lia).
  unfold partition_rows. replace (n + n)%nat with (2 * n)%nat by lia.
  repeat (apply elem_of_cons in Hparts as [->|Hparts]);
    try (by apply elem_of_nil in Hparts).
  all: repeat match goal with
       | |- context [bool_decide ?P] =>
           let b := eval vm_compute in (bool_decide P) in
           change (bool_decide P) with b
       end.
  all: cbn [mbind list_bind].
  all: by rewrite ?app_nil_r, ?Nat.mul_0_l, ?Nat.mul_1_l.
Qed.

(** The clean-up after the loop, for a template of three partitions of [n]
    rows numbered from 1: the rows kept are those of the partitions given,
    in the order of the template, and they are numbered from 1 again. *)
Lemma cleanup_rows (n : nat) (keys : list string) (parts : list nat)
    (template rows : list row) (nullRow : list Z) :
  n = 100%nat ∨ n = 21%nat →
  parts ∈ [[0]; [1]; [2]; [0; 1]; [0; 2]; [1; 2]; [0; 1; 2]]%nat →
  length template = (3 * n)%nat →
  numbered template →
  Forall2 (same_but keys) rows template →
  remove_all (parts ≫= partition_numbers n) (Z.of_nat <$> seq 1 (3 * n)) = Some nullRow →
  let out := if decide (length parts < 3)%nat
             then renumber (pop_rows nullRow rows) else rows in
  length out = (n * length parts)%nat ∧
  numbered out ∧
  Forall2 (same_content_but keys) out (parts ≫= partition_rows n template).
Proof.
  intros Hn Hparts Hlen Hnum Hrows Hrem out.
  assert (Forall2 (same_content_but keys) out (parts ≫= partition_rows n template) ∧
          numbered out) as [Hout Hnumbered].
  { subst out. case_decide as Hfew.
    - split; [|apply renumber_numbered].
      apply renumber_content. rewrite pop_rows_filter.
      replace (parts ≫= partition_rows n template)
        with (filter (λ r, rowNumber r ∉ nullRow) template).
      { apply Forall2_filter; [|done]. by intros r r' (-> & _). }
      pose proof (filter_select (λ k, k ∉ nullRow) template) as Hsel.
      cbv beta in Hsel. rewrite Hsel. clear Hsel.
      unfold numbered in Hnum. rewrite Hnum, Hlen.
      rewrite (mask_blocks n parts nullRow) by done.
      by apply select_blocks.
    - assert (parts = [0; 1; 2]%nat) as ->.
      { repeat (apply elem_of_cons in Hparts as [->|Hparts]); simpl in Hfew;
          try lia; [done|by apply elem_of_nil in Hparts]. }
      rewrite all_partition_rows by done. split; [by apply same_but_content|].
      unfold numbered. rewrite (Forall2_length _ _ _ Hrows).
      by rewrite (same_but_numbers _ _ _ Hrows). }
  split_and!; [|done..].
  rewrite (Forall2_length _ _ _ Hout).
  repeat (apply elem_of_cons in Hparts as [->|Hparts]);
    try (by apply elem_of_nil in Hparts).
  all: cbn [mbind list_bind length].
  all: rewrite ?length_app, ?partition_rows_length by (done || lia).
  all: simpl; lia.
Qed.

Lemma dataPartitionExists_cases validateData trainData testData :
  dataPartitionExists validateData trainData testData = [] ∨
  dataPartitionExists validateData trainData testData
    ∈ [[0]; [1]; [2]; [0; 1]; [0; 2]; [1; 2]; [0; 1; 2]]%nat.
Proof.
  destruct validateData, trainData, testData; [right..|by left];
    unfold dataPartitionExists, provided; cbn;
    repeat first [apply list_elem_of_here | apply list_elem_of_further].
Qed.

(** A run of [generateROCLiftStat] that returns: the calls before the two
    files are written, and what the loop leaves for the clean-up. *)
Lemma generateROCLiftStat_run conn nullJSONROCDict nullJSONLiftDict targetName
    targetValue validateData trainData testData jPath t t' :
  generateROCLiftStat conn nullJSONROCDict nullJSONLiftDict targetName targetValue
    validateData trainData testData jPath t = (Ok (), t') →
  let parts := dataPartitionExists validateData trainData testData in
  ∃ ev st,
    parts ≠ [] ∧
    Forall (λ e, is_write e = false) ev ∧
    remove_all (parts ≫= partition_numbers 100) (Z.of_nat <$> seq 1 300)
      = Some (nullROCRow st) ∧
    Forall2 (same_but roc_keys) (rocData st) (data nullJSONROCDict) ∧
    remove_all (parts ≫= partition_numbers 21) (Z.of_nat <$> seq 1 63)
      = Some (nullLiftRow st) ∧
    Forall2 (same_but lift_keys) (liftData st) (data nullJSONLiftDict) ∧
    t' = t ++ ev ++
         [WriteJSON jPath "dmcas_roc.json"
            (with_data (if decide (length parts < 3)%nat
                        then renumber (pop_rows (nullROCRow st) (rocData st))
                        else rocData st) nullJSONROCDict);
          WriteJSON jPath "dmcas_lift.json"
            (with_data (if decide (length parts < 3)%nat
                        then renumber (pop_rows (nullLiftRow st) (liftData st))
                        else liftData st) nullJSONLiftDict)].
Proof.
  intros Hrun parts. unfold generateROCLiftStat in Hrun.
  rewrite run_lift_bind in Hrun.
  destruct (mapM _ _) as [dataSets|] eqn:Hframes; [|done].
  apply to_frames_indices in Hframes.
  fold (dataPartitionExists validateData trainData testData) in Hframes.
  fold parts in Hrun, Hframes.
  rewrite run_bind in Hrun. destruct (decide (length parts = 0%nat)) as [|Hsome]; [done|].
  cbn [mret M_ret] in Hrun. rewrite run_bind in Hrun. cbn [emit] in Hrun.
  rewrite run_bind in Hrun.
  destruct (mfoldM _ _ _ _) as [[st|] t1] eqn:Hloop; [|done].
  apply assess_partitions_run in Hloop
    as ((ev & -> & Hev) & Hnr & Hrows & Hnl & Hlrows).
  rewrite Hframes in Hnr, Hnl. cbn [nullROCRow rocData nullLiftRow liftData] in *.
  exists (LoadActionSet "percentile" :: ev), st. split_and!; try done.
  - by intros Hnil; rewrite Hnil in Hsome.
  - by constructor.
  - destruct (decide (length parts < 3)%nat); rewrite run_bind in Hrun;
      cbn [emit] in Hrun; injection Hrun as <-;
      by rewrite <- !(assoc_L (++)).
Qed.

(** C7: for templates of 300 and of 63 rows numbered from 1, a call of
    [generateROCLiftStat] that returns has written [dmcas_roc.json] with 100
    rows and [dmcas_lift.json] with 21 rows for each partition given, and
    nothing else; the rows written are those of the partitions given, those
    of the others being removed, and their [rowNumber]s are 1, 2, ... in
    order. *)
Theorem generateROCLiftStat_rows (conn : cas)
    (nullJSONROCDict nullJSONLiftDict : json_doc) (targetName targetValue : pyval)
    (validateData trainData testData : option dataset) (jPath : string)
    (t t' : list event) :
  length (data nullJSONROCDict) = 300%nat → numbered (data nullJSONROCDict) →
  length (data nullJSONLiftDict) = 63%nat → numbered (data nullJSONLiftDict) →
  generateROCLiftStat conn nullJSONROCDict nullJSONLiftDict targetName targetValue
    validateData trainData testData jPath t = (Ok (), t') →
  let parts := dataPartitionExists validateData trainData testData in
  ∃ ev roc lift,
    t' = t ++ ev ++ [WriteJSON jPath "dmcas_roc.json" roc;
                     WriteJSON jPath "dmcas_lift.json" lift] ∧
    ¬ writes_file ev ∧
    meta roc = meta nullJSONROCDict ∧ meta lift = meta nullJSONLiftDict ∧
    length (data roc) = (100 * length parts)%nat ∧
    length (data lift) = (21 * length parts)%nat ∧
    numbered (data roc) ∧ numbered (data lift) ∧
    Forall2 (same_content_but roc_keys) (data roc)
            (parts ≫= partition_rows 100 (data nullJSONROCDict)) ∧
    Forall2 (same_content_but lift_keys) (data lift)
            (parts ≫= partition_rows 21 (data nullJSONLiftDict)).
Proof.
  intros Hroc_len Hroc_num Hlift_len Hlift_num Hrun parts.
  apply generateROCLiftStat_run in Hrun
    as (ev & st & Hparts & Hev & Hnr & Hrows & Hnl & Hlrows & ->).
  fold parts in Hparts, Hnr, Hnl |- *.
  destruct (dataPartitionExists_cases validateData trainData testData)
    as [|Hin]; [done|]. fold parts in Hin.
  destruct (cleanup_rows 100 roc_keys parts _ _ _ (or_introl eq_refl) Hin
              Hroc_len Hroc_num Hrows Hnr) as (? & ? & ?).
  destruct (cleanup_rows 21 lift_keys parts _ _ _ (or_intror eq_refl) Hin
              Hlift_len Hlift_num Hlrows Hnl) as (? & ? & ?).
  eexists ev, _, _. split_and!; [done|by apply no_write_no_file|done..].
Qed.

Lemma generateROCLiftStat_rows_witness :
  ∃ ev roc lift,
    example_roc_run.2 = [] ++ ev ++ [WriteJSON "." "dmcas_roc.json" roc;
                                     WriteJSON "." "dmcas_lift.json" lift] ∧
    ¬ writes_file ev ∧
    meta roc = meta (example_rows 300) ∧ meta lift = meta (example_rows 63) ∧
    length (data roc) = (100 * length [0%nat])%nat ∧
    length (data lift) = (21 * length [0%nat])%nat ∧
    numbered (data roc) ∧ numbered (data lift) ∧
    Forall2 (same_content_but roc_keys) (data roc)
            ([0%nat] ≫= partition_rows 100 (data (example_rows 300))) ∧
    Forall2 (same_content_but lift_keys) (data lift)
            ([0%nat] ≫= partition_rows 21 (data (example_rows 63))).
Proof.
  apply (generateROCLiftStat_rows example_cas (example_rows 300) (example_rows 63)
           (PStr "BAD") (PInt 1) (Some example_frame) None None "." []).
  - reflexivity.
  - vm_compute. reflexivity.
  - reflexivity.
  - vm_compute. reflexivity.
  - assert (example_roc_run.1 = Ok ()) as Hok by (vm_compute; reflexivity).
    revert Hok. unfold example_roc_run.
    destruct (generateROCLiftStat _ _ _ _ _ _ _ _ _ _) as [r tr].
    cbn [fst snd]. by intros ->.
Defined.

(** ** Properties of [import_model.py] *)

Module ImportModelProofs.
Import ImportModel ImportModelSpec.

(** C3 (the code departs from it): the signature and the documentation of
    [project_exists] take the project as a string, a dictionary or a
    [RestObj], and say that a project that is not found is created unless a
    UUID was given.  With no response and a project given as a dictionary,
    whatever the repository answers, the function warns and then raises
    [AttributeError]: the error of [UUID] on the dictionary is not the
    [ValueError] that the handler catches, and no project is created. *)
Theorem project_exists_dictionary (sas : env) (p : RestObj) (t : list event) :
  project_exists sas (ProjectObj p) None t
  = (Raise AttributeError, t ++ [Warn (NoProjectFound (ProjectObj p))]).
Proof. reflexivity. Qed.

(** The same on the example repository. *)
Lemma project_exists_dictionary_raises :
  project_exists (example_env 4) (ProjectObj example_project) None []
  = (Raise AttributeError, [Warn (NoProjectFound (ProjectObj example_project))]).
Proof. reflexivity. Qed.



(** The loop over the models of a paged list. *)
Lemma for_each_check_model name force l t :
  for_each l (check_model name force) t =
  if truthy force
  then (Ok (), t ++ ((λ m, DeleteModel (model_id m)) <$> filter (λ m, named name m) l))
  else match filter (λ m, named name m) l with
       | [] => (Ok (), t)
       | _ :: _ => (Raise ValueError, t)
       end.
Proof.
  revert t. induction l as [|m l IH]; intros t.
  - cbn. rewrite app_nil_r. by destruct (truthy force).
  - cbn [for_each]. rewrite run_bind, filter_cons. unfold check_model at 1.
    fold (named name m). destruct (named name m) eqn:Hm, (truthy force) eqn:Hf;
      cbn [andb negb]; simpl decide.
    + cbn [emit]. rewrite IH. cbn [fmap list_fmap].
      by rewrite <- (assoc_L (++)).
    + done.
    + cbn [mret M_ret]. by rewrite IH.
    + cbn [mret M_ret]. by rewrite IH.
Qed.

(** C2: when the project is found and the version resolves,
    [model_exists] asks for the models of that version; if one of them has
    the name and [force] is falsy it raises [ValueError] and deletes nothing;
    if [force] is truthy it deletes the models of that name, each once and no
    other, and raises nothing; with no model of that name it does
    nothing. *)
Theorem model_exists_same_name (sas : env) (project : project_ref) (name : string)
    (force : pyval) (version_name : string) (t : list event)
    (found : RestObj) (v : version) :
  let t1 := t ++ [GetProject project] in
  let t2 := t1 ++ [ListProjectVersions found] in
  let t3 := t2 ++ [Get (models_path found v)] in
  let same := filter (λ m, named name m) (response_models (get_models sas t3)) in
  get_project sas t1 = Some found →
  resolved_version found version_name (list_project_versions sas t2) = Some v →
  (same ≠ [] → truthy force = false →
   model_exists sas project name force version_name t = (Raise ValueError, t3)) ∧
  (truthy force = true →
   model_exists sas project name force version_name t
   = (Ok (), t3 ++ ((λ m, DeleteModel (model_id m)) <$> same))) ∧
  (same = [] →
   model_exists sas project name force version_name t = (Ok (), t3)).
Proof.
  intros t1 t2 t3 same Hfound Hversion.
  assert (model_exists sas project name force version_name t =
          match get_models sas t3 with
          | NoModels => (Ok (), t3)
          | OneModel model => check_model name force model t3
          | PagedList l => for_each l (check_model name force) t3
          end) as ->.
  { unfold model_exists. rewrite run_bind. cbn [call]. fold t1. rewrite Hfound.
    rewrite run_lift_bind. cbn [or_raise]. rewrite run_bind. cbn [call]. fold t2.
    rewrite run_lift_bind. unfold resolved_version in Hversion. rewrite Hversion.
    cbn [or_raise]. rewrite run_bind. cbn [call].
    fold (models_path found v). fold t3.
    by destruct (get_models sas t3) as [| |[|]]. }
  subst same. destruct (get_models sas t3) as [|m|l]; cbn [response_models].
  - split_and!; [done|intros _; by rewrite app_nil_r|done].
  - pose proof (for_each_check_model name force [m] t3) as Hone.
    cbn [for_each] in Hone. rewrite run_bind in Hone.
    assert (check_model name force m t3 =
            if truthy force
            then (Ok (), t3 ++ ((λ m, DeleteModel (model_id m)) <$> filter (λ m, named name m) [m]))
            else match filter (λ m, named name m) [m] with
                 | [] => (Ok (), t3)
                 | _ :: _ => (Raise ValueError, t3)
                 end) as ->.
    { rewrite <- Hone. by destruct (check_model name force m t3) as [[[]|] ?]. }
    destruct (truthy force); split_and!; try done.
    + intros ->. by rewrite app_nil_r.
    + by destruct (filter _ [m]).
    + by intros ->.
  - rewrite for_each_check_model.
    destruct (truthy force); split_and!; try done.
    + intros ->. by rewrite app_nil_r.
    + by destruct (filter _ l).
    + by intros ->.
Qed.

Lemma model_exists_same_name_witness :
  model_exists (example_env 4) (ProjectName "Loans") "tree" (PBool false) "latest" []
    = (Raise ValueError,
       [GetProject (ProjectName "Loans"); ListProjectVersions example_project;
        Get "/projects/p1/projectVersions/v1/models"]) ∧
  model_exists (example_env 4) (ProjectName "Loans") "tree" (PStr "False") "latest" []
    = (Ok (),
       [GetProject (ProjectName "Loans"); ListProjectVersions example_project;
        Get "/projects/p1/projectVersions/v1/models"; DeleteModel "m1"; DeleteModel "m3"]) ∧
  model_exists (example_env 4) (ProjectName "Loans") "boost" (PBool false) "Version 1" []
    = (Ok (),
       [GetProject (ProjectName "Loans"); ListProjectVersions example_project;
        Get "/projects/p1/projectVersions/v1/models"]).
Proof.
  split_and!.
  - apply (proj1 (model_exists_same_name (example_env 4) (ProjectName "Loans") "tree"
                    (PBool false) "latest" [] example_project
                    {| version_name := "Version 1"; version_id := "v1" |}
                    eq_refl eq_refl)); [discriminate|reflexivity].
  - apply (proj1 (proj2 (model_exists_same_name (example_env 4) (ProjectName "Loans")
                    "tree" (PStr "False") "latest" [] example_project
                    {| version_name := "Version 1"; version_id := "v1" |}
                    eq_refl eq_refl))). reflexivity.
  - apply (proj2 (proj2 (model_exists_same_name (example_env 4) (ProjectName "Loans")
                    "boost" (PBool false) "Version 1" [] example_project
                    {| version_name := "Version 1"; version_id := "v1" |}
                    eq_refl eq_refl))). reflexivity.
Defined.

(** *** The order of the steps of [import_model] *)

Lemma steps_app sas t a b :
  steps sas t (a ++ b) = steps sas t a ++ steps sas (t ++ a) b.
Proof.
  revert t. induction a as [|e a IH]; intros t.
  - by rewrite app_nil_r.
  - cbn [app steps]. rewrite (IH (t ++ [e])), <- (assoc_L (++) t [e] a).
    by destruct e as [| |[]| | | | | | | | | | |].
Qed.

Lemma steps_quiet sas t ev : Forall (λ e, quiet e = true) ev → steps sas t ev = [].
Proof.
  intros H. revert t. induction H as [|e ev He _ IH]; intros t; [done|].
  cbn [steps]. rewrite IH. by destruct e as [| |[]| | | | | | | | | | |].
Qed.

(** The checks themselves make no step: their events are warnings,
    messages and calls to the repository. *)
Lemma project_exists_quiet sas project response t r t' :
  project_exists sas project response t = (r, t') →
  ∃ ev, t' = t ++ ev ∧ Forall (λ e, quiet e = true) ev.
Proof.
  unfold project_exists. destruct response as [response|].
  - intros [= <- <-]. exists []. by rewrite app_nil_r.
  - rewrite run_bind. cbn [emit].
    destruct (UUID sas project) as [|[]]; intros [= <- <-];
      try (eexists; split; [done|by repeat constructor]).
    eexists [_; _; _; _]. split; [by rewrite <- !(assoc_L (++))|by repeat constructor].
Qed.

Lemma model_exists_quiet sas project name force version_name t r t' :
  model_exists sas project name force version_name t = (r, t') →
  ∃ ev, t' = t ++ ev ∧ Forall (λ e, quiet e = true) ev.
Proof.
  unfold model_exists. rewrite run_bind. cbn [call].
  destruct (get_project sas _) as [found|]; rewrite run_lift_bind; cbn [or_raise].
  2: { intros [= <- <-]. eexists; split; [done|by repeat constructor]. }
  rewrite run_bind. cbn [call]. rewrite run_lift_bind.
  destruct (List.find _ _) as [v|]; cbn [or_raise].
  2: { intros [= <- <-]. eexists [_; _].
       split; [by rewrite <- !(assoc_L (++))|by repeat constructor]. }
  rewrite run_bind. cbn [call].
  set (t3 := ((t ++ _) ++ _) ++ _).
  assert (∀ l, for_each l (check_model name force) t3 = (r, t') →
               ∃ ev, t' = t ++ ev ∧ Forall (λ e, quiet e = true) ev) as Hloop.
  { intros l. rewrite for_each_check_model. subst t3.
    destruct (truthy force).
    - intros [= <- <-]. eexists (_ :: _ :: _ :: _).
      split; [by rewrite <- !(assoc_L (++))|].
      repeat (constructor; [done|]). apply Forall_fmap, Forall_forall. by intros.
    - destruct (filter _ l); intros [= <- <-]; eexists [_; _; _];
        (split; [by rewrite <- !(assoc_L (++))|by repeat constructor]). }
  destruct (get_models sas t3) as [|m|[|m l]].
  - apply (Hloop []).
  - intros Hone. apply (Hloop [m]). cbn [for_each]. rewrite run_bind.
    by destruct (check_model name force m t3) as [[[]|] ?].
  - apply (Hloop []).
  - apply (Hloop (m :: l)).
Qed.

Lemma quiet_check_event ev :
  Forall (λ e, quiet e = true) ev → Forall (λ e, check_event e = true) ev.
Proof. intros H. eapply Forall_impl; [exact H|]. by intros []. Qed.

(** The statements that the three branches share: the project check, the
    model check and the import, in that order; an exception comes from one
    of the checks and stops the sequence there. *)
Lemma check_and_import_steps sas a zip_io_file t r t' :
  check_and_import sas a zip_io_file t = (r, t') →
  ∃ new,
    t' = t ++ new ∧
    Forall (λ e, check_event e = true) new ∧
    match r with
    | Ok model =>
        steps sas t new = [ProjectCheck; ModelCheck; Import zip_io_file model] ∧
        ∃ ev found, new = ev ++ [ImportModelFromZip (model_prefix a) found zip_io_file
                                   (project_version a)]
    | Raise e =>
        (steps sas t new = [ProjectCheck] ∨ steps sas t new = [ProjectCheck; ModelCheck]) ∧
        raised_by_check sas a e t'
    end.
Proof.
  unfold check_and_import. rewrite run_bind. cbn [call].
  rewrite run_bind. cbn [emit]. rewrite run_bind.
  destruct (project_exists _ _ _ _) as [[found|e] t1] eqn:Hproject.
  2: { intros [= <- <-].
       pose proof Hproject as Hraised.
       apply project_exists_quiet in Hproject as (ev & -> & Hev).
       eexists (_ :: _ :: ev). split; [by rewrite <- !(assoc_L (++))|].
       split; [repeat (constructor; [done|]); by apply quiet_check_event|].
       split; [|left; eauto].
       left. cbn [steps]. by rewrite steps_quiet. }
  apply project_exists_quiet in Hproject as (ev1 & -> & Hev1).
  rewrite run_bind. cbn [emit]. rewrite run_bind.
  destruct (model_exists _ _ _ _ _ _) as [[[]|e] t2] eqn:Hmodel.
  2: { intros [= <- <-].
       pose proof Hmodel as Hraised.
       apply model_exists_quiet in Hmodel as (ev2 & -> & Hev2).
       eexists (_ :: _ :: ev1 ++ _ :: ev2).
       split; [by rewrite <- !(assoc_L (++))|].
       split.
       { repeat (constructor; [done|]). apply Forall_app. split;
           [by apply quiet_check_event|].
         constructor; [done|by apply quiet_check_event]. }
       split; [|right; eauto].
       right. cbn [steps]. rewrite steps_app, (steps_quiet _ _ ev1) by done.
       cbn [app steps]. by rewrite steps_quiet. }
  apply model_exists_quiet in Hmodel as (ev2 & -> & Hev2).
  cbn [call]. intros [= <- <-].
  eexists (_ :: _ :: ev1 ++ _ :: ev2 ++ [_]).
  split; [by rewrite <- !(assoc_L (++))|]. split.
  { repeat (constructor; [done|]). apply Forall_app. split;
      [by apply quiet_check_event|].
    constructor; [done|]. apply Forall_app. split; [by apply quiet_check_event|].
    by repeat constructor. }
  split.
  - cbn [steps]. rewrite steps_app, (steps_quiet _ _ ev1) by done.
    cbn [app steps]. rewrite steps_app, (steps_quiet _ _ ev2) by done.
    cbn [app steps]. by rewrite <- !(assoc_L (++)).
  - eexists (_ :: _ :: ev1 ++ _ :: ev2), found. cbn [app].
    by rewrite <- (assoc_L (++)).
Qed.

(** The value of [pickle_type] once [mlflow_details] is looked at. *)
Lemma pickle_type_ok (a : arguments) :
  mlflow_ok a = true →
  ∃ p, (if dict_truthy (mlflow_details a)
        then lift (E := event)
               (or_raise KeyError (default ∅ (mlflow_details a) !! "serialization_format"))
        else mret (pickle_type a)) = mret p.
Proof.
  unfold mlflow_ok. destruct (dict_truthy (mlflow_details a)); cbn [negb orb].
  - intros [p Hp]%bool_decide_eq_true. rewrite Hp. by exists p.
  - by exists (pickle_type a).
Qed.

Lemma run_ret_bind {E A B} (a : A) (k : A → M E B) t : (mret a ≫= k) t = k a t.
Proof. reflexivity. Qed.

Lemma zip_model_files_run sas files model_prefix is_viya4 t :
  ∃ ev, zip_model_files sas files model_prefix is_viya4 t
        = (Ok (zip_files sas (t ++ [ZipFiles files model_prefix is_viya4])),
           (t ++ [ZipFiles files model_prefix is_viya4]) ++ ev) ∧
        Forall (λ e, quiet e = true) ev.
Proof.
  unfold zip_model_files. rewrite run_bind. cbn [call].
  destruct files as [path|d].
  - destruct (notebook_output sas).
    + eexists [_]. split; [reflexivity|by repeat constructor].
    + exists []. by rewrite app_nil_r.
  - exists []. by rewrite app_nil_r.
Qed.

(** C8: when one of [input_data], [predict_method] and [score_metrics] is
    missing or empty, [import_model] warns, zips the files given with
    [is_viya4=False], and runs the project check, the model check and the
    import of that zip file; it generates no score code, zips nothing else
    and does not ask for the version of the platform.  It returns the
    response of the import with the [model_files] it was given, unless one
    of the two checks raises. *)
Theorem import_model_without_score_code (sas : env) (a : arguments)
    (t : list event) (r : result (option Model * model_files)) (t' : list event) :
  score_code_requested a = false →
  mlflow_ok a = true →
  import_model sas a t = (r, t') →
  let zipping := ZipFiles (model_files_arg a) (model_prefix a) false in
  let zip_io_file := zip_files sas ((t ++ [Warn ScoreCodeArgumentsRequired]) ++ [zipping]) in
  ∃ new,
    t' = t ++ Warn ScoreCodeArgumentsRequired :: zipping :: new ∧
    Forall (λ e, check_event e = true) new ∧
    match r with
    | Ok (model, files) =>
        files = model_files_arg a ∧
        model = import_model_from_zip sas t' ∧
        steps sas t (Warn ScoreCodeArgumentsRequired :: zipping :: new)
          = [Zip (model_files_arg a) false; ProjectCheck; ModelCheck;
             Import zip_io_file model] ∧
        ∃ ev found, new = ev ++ [ImportModelFromZip (model_prefix a) found zip_io_file
                                   (project_version a)]
    | Raise e => raised_by_check sas a e t'
    end.
Proof.
  intros Hnone Hmlflow Hrun zipping zip_io_file.
  assert (import_model sas a t =
          (emit (Warn ScoreCodeArgumentsRequired);;
           zip_io_file ← zip_model_files sas (model_files_arg a) (model_prefix a) false;
           model ← check_and_import sas a zip_io_file;
           mret (model, model_files_arg a)) t) as Heq.
  { unfold import_model. destruct (pickle_type_ok a Hmlflow) as [p ->].
    rewrite run_ret_bind. unfold score_code_requested in Hnone.
    destruct (input_data a) as [d|], (predict_method a) as [[|]|],
      (score_metrics a) as [[|]|]; try done. }
  rewrite Heq in Hrun. clear Heq.
  rewrite run_bind in Hrun. cbn [emit] in Hrun. rewrite run_bind in Hrun.
  destruct (zip_model_files_run sas (model_files_arg a) (model_prefix a) false
              (t ++ [Warn ScoreCodeArgumentsRequired])) as (ev0 & Hzip & Hev0).
  rewrite Hzip in Hrun. clear Hzip. fold zipping zip_io_file in Hrun.
  rewrite run_bind in Hrun.
  destruct (check_and_import _ _ _ _) as [[model|e] t2] eqn:Hcheck;
    apply check_and_import_steps in Hcheck as (new & -> & Hnew & Hr);
    cbn [mret M_ret] in Hrun; injection Hrun as <- <-.
  - destruct Hr as [Hsteps (ev & found & ->)].
    exists (ev0 ++ ev ++ [ImportModelFromZip (model_prefix a) found zip_io_file
                            (project_version a)]).
    split; [by rewrite <- !(assoc_L (++))|].
    split; [apply Forall_app; split; [by apply quiet_check_event|done]|].
    split_and!; [done| | |].
    + pose proof Hsteps as Hlast. rewrite steps_app in Hlast.
      cbn [steps] in Hlast. apply (f_equal last) in Hlast.
      rewrite last_snoc in Hlast. injection Hlast as <-.
      f_equal. by rewrite <- !(assoc_L (++)).
    + cbn [steps]. fold zipping. f_equal. rewrite steps_app, (steps_quiet _ _ ev0) by done.
      exact Hsteps.
    + eexists (ev0 ++ ev), found. by rewrite <- (assoc_L (++)).
  - destruct Hr as [_ Hraised].
    exists (ev0 ++ new). split; [by rewrite <- !(assoc_L (++))|].
    split; [apply Forall_app; split; [by apply quiet_check_event|done]|done].
Qed.

Lemma import_model_without_score_code_witness :
  let a := example_arguments (FilesPath "/models") "boost" None in
  let zipping := ZipFiles (model_files_arg a) (model_prefix a) false in
  let zip_io_file :=
    zip_files (example_env 4) (([] ++ [Warn ScoreCodeArgumentsRequired]) ++ [zipping]) in
  ∃ new,
    example_import_without_score_code.2
      = [] ++ Warn ScoreCodeArgumentsRequired :: zipping :: new ∧
    Forall (λ e, check_event e = true) new ∧
    match example_import_without_score_code.1 with
    | Ok (model, files) =>
        files = model_files_arg a ∧
        model = import_model_from_zip (example_env 4) example_import_without_score_code.2 ∧
        steps (example_env 4) [] (Warn ScoreCodeArgumentsRequired :: zipping :: new)
          = [Zip (model_files_arg a) false; ProjectCheck; ModelCheck;
             Import zip_io_file model] ∧
        ∃ ev found, new = ev ++ [ImportModelFromZip (model_prefix a) found zip_io_file
                                   (project_version a)]
    | Raise e => raised_by_check (example_env 4) a e example_import_without_score_code.2
    end.
Proof.
  apply (import_model_without_score_code (example_env 4)
           (example_arguments (FilesPath "/models") "boost" None) []);
    reflexivity.
Defined.

Lemma report_import_run sas model t :
  ∃ ev, report_import sas model t = (Ok (), t ++ ev) ∧ Forall (λ e, quiet e = true) ev.
Proof.
  unfold report_import. destruct (notebook_output sas); [destruct model|].
  - eexists [_]. split; [reflexivity|by repeat constructor].
  - eexists [_]. split; [reflexivity|by repeat constructor].
  - exists []. by rewrite app_nil_r.
Qed.

(** C1: when [input_data], [predict_method] and [score_metrics] are all
    supplied, [import_model] asks for the version of the platform.  On
    version 4 it generates the score code first, zips the files with
    [is_viya4=True], the generated code among them when it came back as a
    dictionary, and then checks the project, checks the model and imports
    the zip file; otherwise it zips the files given with [is_viya4=False],
    checks and imports them, and only then generates the score code, for
    the model that the import answered.  An exception stops the sequence
    where it is raised: by one of the checks, or by files that are a
    directory where the score code came back as a dictionary (or the other
    way round). *)
Theorem import_model_step_order (sas : env) (a : arguments)
    (t : list event) (r : result (option Model * model_files)) (t' : list event) :
  score_code_requested a = true →
  mlflow_ok a = true →
  import_model sas a t = (r, t') →
  let viya4 := version_info sas (t ++ [VersionInfo]) =? 4 in
  ∃ new score_code_dict zip_io_file model,
    t' = t ++ VersionInfo :: new ∧
    steps sas t (VersionInfo :: new)
      `prefix_of` step_order viya4 a score_code_dict zip_io_file model ∧
    match r with
    | Ok (response, files) =>
        steps sas t (VersionInfo :: new)
          = step_order viya4 a score_code_dict zip_io_file model ∧
        files = with_score_code score_code_dict (model_files_arg a) ∧
        response = if viya4 then model else get_model sas t'
    | Raise e => raised_by_check sas a e t' ∨ raised_by_files a score_code_dict e
    end.
Proof.
  intros Hall Hmlflow Hrun viya4.
  unfold import_model in Hrun. destruct (pickle_type_ok a Hmlflow) as [p Hp].
  rewrite Hp, run_ret_bind in Hrun. clear Hp.
  unfold score_code_requested in Hall.
  destruct (input_data a) as [d|]; [|done].
  destruct (predict_method a) as [[|pm0 pm]|]; try done.
  destruct (score_metrics a) as [[|sm0 sm]|]; try (by rewrite andb_false_r in Hall).
  clear Hall. rewrite run_bind in Hrun. cbn [call] in Hrun. fold viya4 in Hrun.
  unfold step_order, raised_by_files, with_score_code.
  destruct viya4.
  - (* SAS Viya 4 *)
    rewrite run_bind in Hrun. cbn [call] in Hrun.
    match type of Hrun with
    | context [write_score_code sas ?T] => set (sc := write_score_code sas T) in *
    end.
    rewrite run_bind in Hrun.
    destruct (dict_truthy sc) eqn:Hsc, (model_files_arg a) as [path|files] eqn:Hfiles.
    + injection Hrun as <- <-. eexists [_], sc, "", None.
      split; [by rewrite <- !(assoc_L (++))|]. cbn [steps]. fold sc.
      split; [by eexists|]. by right.
    + rewrite run_bind in Hrun. cbn [call mret M_ret] in Hrun.
      match type of Hrun with
      | context [zip_files sas ?T] => set (z := zip_files sas T) in *
      end.
      rewrite run_bind in Hrun.
      destruct (check_and_import _ _ _ _) as [[model|e] t2] eqn:Hcheck;
        apply check_and_import_steps in Hcheck as (new & -> & Hnew & Hr).
      * destruct Hr as [Hsteps _]. rewrite run_bind in Hrun.
        match type of Hrun with
        | context [report_import sas model ?T] =>
            destruct (report_import_run sas model T) as (ev & Hreport & Hev)
        end.
        rewrite Hreport in Hrun. cbn [mret M_ret] in Hrun. injection Hrun as <- <-.
        eexists (_ :: _ :: new ++ ev), sc, z, model.
        split; [by rewrite <- !(assoc_L (++))|].
        cbn [steps]. fold sc. rewrite steps_app, Hsteps, steps_quiet by done.
        rewrite Hsc. by split.
      * destruct Hr as [Hsteps Hraised]. injection Hrun as <- <-.
        eexists (_ :: _ :: new), sc, z, None.
        split; [by rewrite <- !(assoc_L (++))|].
        cbn [steps]. fold sc. rewrite Hsc. split; [|by left].
        destruct Hsteps as [-> | ->]; by eexists.
    + assert (∃ ev1 : list event,
                Forall (λ e, quiet e = true) ev1 ∧
                ((if notebook_output sas
                  then emit (Print (ScoreCodeWritten path (model_prefix a)))
                  else mret ()) : M event ())
                  ((t ++ [VersionInfo]) ++ [WriteScoreCode
                     {| sc_model_prefix := model_prefix a; sc_input_data := d;
                        sc_predict_method := pm0 :: pm; sc_score_metrics := sm0 :: sm;
                        sc_model := None; sc_pickle_type := p;
                        sc_predict_threshold := predict_threshold a;
                        sc_score_code_path := Some path;
                        sc_target_values := target_values a;
                        sc_missing_values := missing_values a;
                        sc_score_cas := score_cas a; sc_kwargs := kwargs a |}])
                = (Ok (), ((t ++ [VersionInfo]) ++ [WriteScoreCode
                     {| sc_model_prefix := model_prefix a; sc_input_data := d;
                        sc_predict_method := pm0 :: pm; sc_score_metrics := sm0 :: sm;
                        sc_model := None; sc_pickle_type := p;
                        sc_predict_threshold := predict_threshold a;
                        sc_score_code_path := Some path;
                        sc_target_values := target_values a;
                        sc_missing_values := missing_values a;
                        sc_score_cas := score_cas a; sc_kwargs := kwargs a |}]) ++ ev1))
        as (ev1 & Hev1 & Hprint).
      { destruct (notebook_output sas).
        - exists [Print (ScoreCodeWritten path (model_prefix a))].
          split; [by repeat constructor|reflexivity].
        - exists []. split; [done|]. by rewrite app_nil_r. }
      rewrite run_bind, Hprint in Hrun. clear Hprint.
      cbv beta iota in Hrun. rewrite run_bind in Hrun.
      match type of Hrun with
      | context [zip_model_files sas ?f ?p ?b ?T] =>
          destruct (zip_model_files_run sas f p b T) as (ev0 & Hzip & Hev0)
      end.
      rewrite Hzip in Hrun; clear Hzip; cbn [mret M_ret] in Hrun.
      match type of Hrun with
      | context [zip_files sas ?T] => set (z := zip_files sas T) in *
      end.
      rewrite run_bind in Hrun.
      destruct (check_and_import _ _ _ _) as [[model|e] t2] eqn:Hcheck;
        apply check_and_import_steps in Hcheck as (new & -> & Hnew & Hr).
      * destruct Hr as [Hsteps _]. rewrite run_bind in Hrun.
        match type of Hrun with
        | context [report_import sas model ?T] =>
            destruct (report_import_run sas model T) as (ev & Hreport & Hev)
        end.
        rewrite Hreport in Hrun. cbn [mret M_ret] in Hrun. injection Hrun as <- <-.
        eexists (_ :: ev1 ++ _ :: ev0 ++ new ++ ev), sc, z, model.
        split; [by rewrite <- !(assoc_L (++))|].
        cbn [steps]. fold sc.
        rewrite steps_app, (steps_quiet _ _ ev1) by done. cbn [app steps].
        rewrite steps_app, (steps_quiet _ _ ev0), steps_app by done.
        cbn [app]. rewrite Hsteps, steps_quiet by done. by split.
      * destruct Hr as [Hsteps Hraised]. injection Hrun as <- <-.
        eexists (_ :: ev1 ++ _ :: ev0 ++ new), sc, z, None.
        split; [by rewrite <- !(assoc_L (++))|].
        cbn [steps]. fold sc.
        rewrite steps_app, (steps_quiet _ _ ev1) by done. cbn [app steps].
        rewrite steps_app, (steps_quiet _ _ ev0) by done.
        cbn [app]. split; [|by left]. destruct Hsteps as [-> | ->]; by eexists.
    + injection Hrun as <- <-. eexists [_], sc, "", None.
      split; [by rewrite <- !(assoc_L (++))|]. cbn [steps]. fold sc.
      split; [by eexists|]. by right.
  - (* SAS Viya 3.5 *)
    rewrite run_bind in Hrun.
    match type of Hrun with
    | context [zip_model_files sas ?f ?p ?b ?T] =>
        destruct (zip_model_files_run sas f p b T) as (ev0 & Hzip & Hev0)
    end.
    rewrite Hzip in Hrun. clear Hzip.
    match type of Hrun with
    | context [zip_files sas ?T] => set (z := zip_files sas T) in *
    end.
    rewrite run_bind in Hrun.
    destruct (check_and_import _ _ _ _) as [[model|e] t2] eqn:Hcheck;
      apply check_and_import_steps in Hcheck as (new & -> & Hnew & Hr).
    2: { destruct Hr as [Hsteps Hraised]. injection Hrun as <- <-.
         eexists (_ :: ev0 ++ new), None, z, None.
         split; [by rewrite <- !(assoc_L (++))|].
         cbn [steps]. rewrite steps_app, (steps_quiet _ _ ev0) by done.
         cbn [app]. split; [|by left]. destruct Hsteps as [-> | ->]; by eexists. }
    destruct Hr as [Hsteps _]. rewrite run_bind in Hrun.
    match type of Hrun with
    | context [report_import sas model ?T] =>
        destruct (report_import_run sas model T) as (ev & Hreport & Hev)
    end.
    rewrite Hreport in Hrun. clear Hreport. rewrite run_bind in Hrun.
    cbn [call] in Hrun.
    match type of Hrun with
    | context [write_score_code sas ?T] => set (sc := write_score_code sas T) in *
    end.
    assert (∀ (last : list event), Forall (λ e, quiet e = true) last →
      steps sas t (VersionInfo :: ZipFiles (model_files_arg a) (model_prefix a) false
                     :: ev0 ++ new ++ ev ++ WriteScoreCode
                          {| sc_model_prefix := model_prefix a; sc_input_data := d;
                             sc_predict_method := pm0 :: pm; sc_score_metrics := sm0 :: sm;
                             sc_model := model; sc_pickle_type := p;
                             sc_predict_threshold := predict_threshold a;
                             sc_score_code_path :=
                               match model_files_arg a with
                               | FilesPath path => Some path
                               | FilesDict _ => None
                               end;
                             sc_target_values := target_values a;
                             sc_missing_values := missing_values a;
                             sc_score_cas := score_cas a; sc_kwargs := kwargs a |}
                          :: last)
      = [Zip (model_files_arg a) false; ProjectCheck; ModelCheck; Import z model;
         Score model sc]) as Horder.
    { intros last Hlast. cbn [steps].
      rewrite steps_app, (steps_quiet _ _ ev0), steps_app by done.
      cbn [app]. rewrite Hsteps. cbn [app].
      rewrite steps_app, (steps_quiet _ _ ev) by done. cbn [app steps].
      rewrite steps_quiet by done. subst sc. by rewrite <- !(assoc_L (++)). }
    destruct (dict_truthy sc) eqn:Hsc, (model_files_arg a) as [path|files] eqn:Hfiles.
    + injection Hrun as <- <-.
      eexists (_ :: ev0 ++ new ++ ev ++ [_]), sc, z, model.
      split; [by rewrite <- !(assoc_L (++))|].
      rewrite (Horder []) by done. split; [done|by right].
    + cbn [call mret M_ret] in Hrun. rewrite run_bind in Hrun. cbn [call mret M_ret] in Hrun.
      injection Hrun as <- <-.
      eexists (_ :: ev0 ++ new ++ ev ++ [_; _]), sc, z, model.
      split; [by rewrite <- !(assoc_L (++))|].
      rewrite (Horder [_]) by (by repeat constructor). by rewrite Hsc.
    + assert (∃ ev1 : list event, Forall (λ e, quiet e = true) ev1 ∧
                ∀ T, ((if notebook_output sas
                       then emit (Print (ScoreCodeWritten path (model_prefix a)))
                       else mret ()) : M event ()) T = (Ok (), T ++ ev1))
        as (ev1 & Hev1 & Hprint).
      { destruct (notebook_output sas).
        - exists [Print (ScoreCodeWritten path (model_prefix a))].
          split; [by repeat constructor|reflexivity].
        - exists []. split; [done|]. intros T. by rewrite app_nil_r. }
      rewrite run_bind, Hprint in Hrun. rewrite run_bind in Hrun.
      cbn [call mret M_ret] in Hrun. injection Hrun as <- <-.
      eexists (_ :: ev0 ++ new ++ ev ++ _ :: ev1 ++ [_]), sc, z, model.
      split; [by rewrite <- !(assoc_L (++))|].
      rewrite Horder.
      * done.
      * apply Forall_app. split; [done|by repeat constructor].
    + injection Hrun as <- <-.
      eexists (_ :: ev0 ++ new ++ ev ++ [_]), sc, z, model.
      split; [by rewrite <- !(assoc_L (++))|].
      rewrite (Horder []) by done. split; [done|by right].
Qed.

Lemma import_model_step_order_witness :
  let a := example_arguments (FilesDict {[ "boost.pickle" := "bytes" ]}) "boost"
             (Some ["EM_CLASS"]) in
  (∃ new score_code_dict zip_io_file model,
     (example_import 4).2 = [] ++ VersionInfo :: new ∧
     steps (example_env 4) [] (VersionInfo :: new)
       `prefix_of` step_order (version_info (example_env 4) ([] ++ [VersionInfo]) =? 4)
                     a score_code_dict zip_io_file model ∧
     match (example_import 4).1 with
     | Ok (response, files) =>
         steps (example_env 4) [] (VersionInfo :: new)
           = step_order (version_info (example_env 4) ([] ++ [VersionInfo]) =? 4)
               a score_code_dict zip_io_file model ∧
         files = with_score_code score_code_dict (model_files_arg a) ∧
         response = if version_info (example_env 4) ([] ++ [VersionInfo]) =? 4
                    then model else get_model (example_env 4) (example_import 4).2
     | Raise e => raised_by_check (example_env 4) a e (example_import 4).2 ∨
                  raised_by_files a score_code_dict e
     end) ∧
  (∃ new score_code_dict zip_io_file model,
     (example_import 3).2 = [] ++ VersionInfo :: new ∧
     steps (example_env 3) [] (VersionInfo :: new)
       `prefix_of` step_order (version_info (example_env 3) ([] ++ [VersionInfo]) =? 4)
                     a score_code_dict zip_io_file model ∧
     match (example_import 3).1 with
     | Ok (response, files) =>
         steps (example_env 3) [] (VersionInfo :: new)
           = step_order (version_info (example_env 3) ([] ++ [VersionInfo]) =? 4)
               a score_code_dict zip_io_file model ∧
         files = with_score_code score_code_dict (model_files_arg a) ∧
         response = if version_info (example_env 3) ([] ++ [VersionInfo]) =? 4
                    then model else get_model (example_env 3) (example_import 3).2
     | Raise e => raised_by_check (example_env 3) a e (example_import 3).2 ∨
                  raised_by_files a score_code_dict e
     end).
Proof.
  split.
  - apply (import_model_step_order (example_env 4)
             (example_arguments (FilesDict {[ "boost.pickle" := "bytes" ]}) "boost"
                (Some ["EM_CLASS"])) []); reflexivity.
  - apply (import_model_step_order (example_env 3)
             (example_arguments (FilesDict {[ "boost.pickle" := "bytes" ]}) "boost"
                (Some ["EM_CLASS"])) []); reflexivity.
Defined.

(** The two example runs return: on version 4 the model of the import, on
    version 3.5 the model fetched again, each with the score code among the
    files. *)
Example example_import_returns :
  (example_import 4).1
    = Ok (Some {| model_id := "m9"; model_name := "boost" |},
          FilesDict {[ "score_tree.py" := "def score(): pass"; "boost.pickle" := "bytes" ]}) ∧
  steps (example_env 4) [] (example_import 4).2
    = [Score None (Some {[ "score_tree.py" := "def score(): pass" ]});
       Zip (FilesDict {[ "score_tree.py" := "def score(): pass"; "boost.pickle" := "bytes" ]}) true;
       ProjectCheck; ModelCheck;
       Import "zip" (Some {| model_id := "m9"; model_name := "boost" |})] ∧
  steps (example_env 3) [] (example_import 3).2
    = [Zip (FilesDict {[ "boost.pickle" := "bytes" ]}) false;
       ProjectCheck; ModelCheck;
       Import "zip" (Some {| model_id := "m9"; model_name := "boost" |});
       Score (Some {| model_id := "m9"; model_name := "boost" |})
             (Some {[ "score_tree.py" := "def score(): pass" ]})] ∧
  example_import_without_score_code.1
    = Ok (Some {| model_id := "m9"; model_name := "boost" |}, FilesPath "/models").
Proof. split_and!; by vm_compute. Qed.

(** *** Further properties of [import_model.py] *)








End ImportModelProofs.

(** ** Further properties of [writeJSONFiles.py] *)














(** The example run returns, with each parameter in the row of its role. *)
Example example_base_run_rows :
  example_base_run
  = (Ok (), [Input "Parameter name: "; Input "Parameter value: ";
             Input "Data role: "; Input "More parameters? (Y/N)";
             Input "Parameter name: ";
             Print "Not a valid parameter. Please see documentation.";
             Input "More parameters? (Y/N)"; ReadCsv "stats.csv";
             WriteJSON "." "dmcas_fitstat.json"
               {| data :=
                    [ {| dataMap := <["_NObs_" := PInt 3488]> {[ "_DataRole_" := PStr "TRAIN" ]};
                         rowNumber := 1; others := ∅ |};
                      {| dataMap := <["_KS_" := PStr "0.5"]> {[ "_DataRole_" := PStr "TEST" ]};
                         rowNumber := 2; others := ∅ |};
                      {| dataMap := <["_ASE_" := PFloat (float_of_Z 0)]>
                                      {[ "_DataRole_" := PStr "VALIDATE" ]};
                         rowNumber := 3; others := ∅ |} ];
                  meta := {[ "name" := PStr "dmcas_fitstat" ]} |}]).
Proof. by vm_compute. Qed.


(** *** The CAS calls and the layouts of [generateROCLiftStat] *)














(** ** Properties of [writeModelPropertiesJSON] *)

Module ModelPropertiesProofs.
Import ModelProperties ModelPropertiesSpec.













End ModelPropertiesProofs.
